(** * Tiled inference pipeline of simple-sat-searcher

    Shallow embedding of the two [ModelDeployer] implementations of the
    backend:
    - [Legacy]  : [src/backend/deploy.py] (used by [app.py]);
    - [Service] : [src/backend/services/deploy_service.py] (used by
      [api/deployment.py]).

    Python exceptions (instances of [Exception]) are the constructors of
    [exn]; fallible computations return [res].  Floating-point geometry
    (tile corners, chip footprints, the aspect ratio and the metres to
    pixels conversion) is kept abstract: the claims below only depend on the
    integer and control-flow parts of the code. *)

From Stdlib Require Import ZArith List QArith Qround Qminmax Permutation Bool Lia Ascii String.
Import ListNotations.

Open Scope Z_scope.

(** ** Python exceptions and results *)

Inductive exn :=
| ValueError (msg : string)
| ZeroDivisionError
| IndexError
| TypeError (msg : string)
| EEException (msg : string)   (** Earth Engine / transport failures *)
| OSError (msg : string).       (** file system failures *)

Inductive res (A : Type) := Ok (a : A) | Err (e : exn).
Arguments Ok {A} a.
Arguments Err {A} e.

Definition res_bind {A B} (r : res A) (f : A -> res B) : res B :=
  match r with Ok a => f a | Err e => Err e end.

Notation "r >>= f" := (res_bind r f) (at level 50, left associativity).

(** ** Python built-ins *)

(** [range(start, stop, step)]; a zero step raises [ValueError]. *)
Definition py_range (start stop step : Z) : res (list Z) :=
  if step =? 0 then Err (ValueError "range() arg 3 must not be zero")
  else
    let n := if step >? 0 then (stop - start + step - 1) / step
             else (start - stop - step - 1) / (- step) in
    Ok (map (fun k => start + Z.of_nat k * step) (seq 0 (Z.to_nat n))).

(** [range(n)] *)
Definition py_range1 (n : Z) : list Z := map Z.of_nat (seq 0 (Z.to_nat n)).

(** [a // b] on Python ints (floor division; [Z.div] floors too). *)
Definition py_floordiv (a b : Z) : res Z :=
  if b =? 0 then Err ZeroDivisionError else Ok (a / b).

(** [int(q)] on a float: truncation toward zero. *)
Definition py_int (q : Q) : Z :=
  if Qle_bool 0 q then Qfloor q else Qceiling q.

(** [xs[a:b]] for [0 <= a]. *)
Definition py_slice {A} (xs : list A) (a b : Z) : list A :=
  firstn (Z.to_nat (b - a)) (skipn (Z.to_nat a) xs).

(** Length of the numpy slice [arr[a:b]] along an axis of length [n], for
    non-negative [a] and [b] (the only case the windowing loops produce). *)
Definition slice_len (n a b : Z) : Z := Z.max 0 (Z.min b n - Z.min a n).

(** ** The two implementations *)

Inductive variant :=
| Legacy    (** src/backend/deploy.py *)
| Service.  (** src/backend/services/deploy_service.py *)

(** ** Earth Engine request ceiling ([make_predictions]) *)

(** [max_pixels_per_tile = 262144  # Earth Engine's limit] *)
Definition max_pixels_per_tile : Z := 262144.

(** [max_tile_dimension = int(np.sqrt(max_pixels_per_tile))] *)
Definition max_tile_dimension : Z := Z.sqrt max_pixels_per_tile.

(** [if self.chip_size > max_tile_dimension: self.chip_size = max_tile_dimension] *)
Definition clamp_chip_size (chip_size : Z) : Z :=
  if chip_size >? max_tile_dimension then max_tile_dimension else chip_size.

(** Width and height passed to [clipToBoundsAndScale] by [_process_tile].

    deploy.py:  [width=self.chip_size + 2, height=self.chip_size + 2]. *)
Definition request_dims_legacy (chip_size : Z) : Z * Z :=
  (chip_size + 2, chip_size + 2).

(** deploy_service.py: the size preserving the (latitude corrected) aspect
    ratio of the tile:
    [if aspect_ratio > 1: width = self.chip_size; height = int(self.chip_size / aspect_ratio)]
    [else: height = self.chip_size; width = int(self.chip_size * aspect_ratio)]. *)
Definition request_dims_service (chip_size : Z) (aspect_ratio : Q) : Z * Z :=
  if Qle_bool aspect_ratio 1
  then (py_int (inject_Z chip_size * aspect_ratio), chip_size)
  else (chip_size, py_int (inject_Z chip_size / aspect_ratio)).

(** ** The pipeline *)

Section Pipeline.

(** Python floats used as confidences, with the comparison [>=]. *)
Context {conf : Type}.
Context {geb : conf -> conf -> bool}.
(** shapely [Polygon]s (chip footprints). *)
Context {geom : Type}.
(** The region's bounding box [bounds] and a tile's lon/lat corners. *)
Context {bbox : Type}.
Context {corners : Type}.
(** Pixel contents of a raster (normalised numpy array). *)
Context {pixels : Type}.

(** Tile corners by linear interpolation of the bounding box:
    [tile_corners b x y n_tiles_x n_tiles_y]. *)
Context {tile_corners : bbox -> Z -> Z -> Z -> Z -> corners}.
(** deploy_service.py: [(lon_max - lon_min) / (lat_max - lat_min)] times
    [cos(lat_mid)]; the division raises [ZeroDivisionError] on a flat tile. *)
Context {tile_aspect : corners -> res Q}.
(** Chip footprint [chip_geom v corners raster_h raster_w chip_size i j]
    (float arithmetic; deploy.py and deploy_service.py differ here). *)
Context {chip_geom : variant -> corners -> Z -> Z -> Z -> Z -> Z -> geom}.

(** A tile: [tile_info = (x, y, coords, tile_geom)]. *)
Record tile_info := mk_tile { t_x : Z; t_y : Z; t_corners : corners }.

(** A fetched, normalised raster of shape [(r_h, r_w, r_b)]. *)
Record raster := mk_raster { r_h : Z; r_w : Z; r_b : Z; r_px : pixels }.

(** [ee.data.computePixels] on the clipped composite of a tile, with the
    requested width and height, at a given attempt number. *)
Context {compute_pixels : tile_info -> Z -> Z -> nat -> res raster}.

(** A chip: the patch [image_data[i:i + chip_size, j:j + chip_size]]. *)
Record chip := mk_chip { ch_px : pixels; ch_i : Z; ch_j : Z; ch_shape : Z * Z * Z }.

(** One row of [model.predict(chips_array)]: a Python scalar, a 1-d or a
    2-d numpy array. *)
Inductive pred :=
| PScalar (c : conf)
| PArr1 (xs : list conf)
| PArr2 (rows : list (list conf)).

(** The classifier: [model.input_shape[1:]] and [model.predict]. *)
Record model := mk_model {
  input_shape : Z * Z * Z;
  predict : list chip -> res (list pred)
}.

(** Warnings logged by [_process_tile]. *)
Inductive warning :=
| WFetchFailed (x y : Z) (e : exn)  (** "Failed to get data for tile at (x, y)" *)
| WTileError (x y : Z) (e : exn).   (** "Error processing tile at (x, y)" *)

(** *** Fetching *)

(** One attempt of the body of the retry loop. *)
Definition fetch_once (v : variant) (chip_size : Z) (t : tile_info)
    (attempt : nat) : res raster :=
  match v with
  | Legacy =>
      let '(w, h) := request_dims_legacy chip_size in
      compute_pixels t w h attempt
  | Service =>
      tile_aspect (t_corners t) >>= fun a =>
      let '(w, h) := request_dims_service chip_size a in
      compute_pixels t w h attempt
  end.

Inductive fetched :=
| Fetched (r : raster)    (** [break] with [image_data] set *)
| FetchFailed (e : exn)   (** [if attempt == tries - 1: warning; return [], []] *)
| NoImage.                (** loop exhausted, [image_data is None] *)

(** [for attempt in range(tries): try ... break / except: ... continue] *)
Fixpoint fetch_loop (fetch : nat -> res raster) (tries : Z)
    (attempts : list nat) : fetched :=
  match attempts with
  | [] => NoImage
  | a :: rest =>
      match fetch a with
      | Ok r => Fetched r
      | Err e =>
          if Z.of_nat a =? tries - 1 then FetchFailed e
          else fetch_loop fetch tries rest
      end
  end.

(** The rest of the body of the retry loop, after [computePixels]:
    [image_data = np.array(pixels.tolist())];
    [if len(image_data.shape) == 2:
       image_data = image_data.reshape(image_data.shape[0], image_data.shape[1], -1)];
    [image_data = self.normalize_data(image_data, self.collection)]
    ([normalize_data] keeps the shape).  A result with no rows gives the
    1-d [np.array([])], kept here as a raster with [r_h = 0]; a result with
    rows but no columns gives a 2-d array of size 0, whose reshape with
    [-1] raises. *)
Definition to_image (r : raster) : res raster :=
  if r_h r =? 0 then Ok r
  else if r_w r =? 0 then
    Err (ValueError "cannot reshape array of size 0 into shape (h,0,newaxis)")
  else Ok r.

(** The retry loop over [range(tries)]: attempt [a] is the request
    [fetch a] followed by the conversion [to_image]. *)
Definition fetch_tile (fetch : nat -> res raster) (tries : Z) : fetched :=
  fetch_loop (fun a => fetch a >>= to_image) tries (seq 0 (Z.to_nat tries)).

(** *** Windowing *)

Definition shape_eqb (s1 s2 : Z * Z * Z) : bool :=
  let '(a1, b1, c1) := s1 in let '(a2, b2, c2) := s2 in
  (a1 =? a2) && (b1 =? b2) && (c1 =? c2).

(** [patch.shape] of [image_data[i:i + chip_size, j:j + chip_size]]. *)
Definition patch_shape (r : raster) (chip_size i j : Z) : Z * Z * Z :=
  (slice_len (r_h r) i (i + chip_size), slice_len (r_w r) j (j + chip_size), r_b r).

(** Body of the inner loop: the chip at [(i, j)] with its footprint, or
    [continue] when [patch.shape != input_shape]. *)
Definition chip_at (v : variant) (t : tile_info) (r : raster)
    (ishape : Z * Z * Z) (chip_size i j : Z) : option (chip * geom) :=
  let s := patch_shape r chip_size i j in
  if shape_eqb s ishape
  then Some (mk_chip (r_px r) i j s,
             chip_geom v (t_corners t) (r_h r) (r_w r) chip_size i j)
  else None.

(** The chip extraction of [_process_tile]:
    [stride = chip_size // 2];
    [x_per_pixel = delta_x / image_data.shape[1]] (and [y_per_pixel]):
    [shape[1]] of the 1-d array of a raster with no rows raises
    [IndexError] (in deploy.py already at [valid_width]), a zero width
    divides by zero;
    [for i in range(0, H - chip_size + 1, stride):
       for j in range(0, W - chip_size + 1, stride): ...]. *)
Definition windows (v : variant) (t : tile_info) (r : raster)
    (ishape : Z * Z * Z) : res (list (chip * geom)) :=
  let '(chip_size, _, _) := ishape in
  let stride := chip_size / 2 in
  if r_h r =? 0 then Err IndexError
  else if r_w r =? 0 then Err ZeroDivisionError
  else
    py_range 0 (r_h r - chip_size + 1) stride >>= fun is_ =>
    let rows := map (fun i =>
      py_range 0 (r_w r - chip_size + 1) stride >>= fun js =>
      Ok (flat_map (fun j => match chip_at v t r ishape chip_size i j with
                             | Some c => [c] | None => [] end) js)) is_ in
    fold_right (fun row acc => row >>= fun cs => acc >>= fun rest => Ok (cs ++ rest))
      (Ok []) rows.

(** *** Scoring *)

(** The value [pred_value] of the prediction loop: a number (a Python
    float or a numpy scalar), or a 1-element 1-d numpy array. *)
Inductive pred_val :=
| PVNum (c : conf)
| PVArr (c : conf).

(** The number a [pred_val] compares as: [array([x]) >= t] is [array([x >= t])],
    whose truth value is that of [x >= t]. *)
Definition pv_value (v : pred_val) : conf :=
  match v with PVNum c | PVArr c => c end.

(** [if isinstance(pred, np.ndarray):
       if len(pred.shape) > 1: pred_value = pred[0][0] if pred.shape[1] > 1 else pred[0]
       else: pred_value = pred[0]
     else: pred_value = float(pred)],
    with numpy 2 semantics: for a row of width 1, [pred[0]] is the
    1-element array; for a row of width 0 it is the empty array, which
    cannot be tested with [>=] in an [if] and raises. *)
Definition pred_value (p : pred) : res pred_val :=
  match p with
  | PScalar c => Ok (PVNum c)
  | PArr1 xs => match xs with x :: _ => Ok (PVNum x) | [] => Err IndexError end
  | PArr2 rows =>
      match rows with
      | [] => Err IndexError
      | r0 :: _ =>
          match r0 with
          | [x] => Ok (PVArr x)
          | x :: _ :: _ => Ok (PVNum x)
          | [] => Err (ValueError "The truth value of an empty array is ambiguous")
          end
      end
  end.

(** [float(pred_value)]: numpy 2 converts only 0-dimensional arrays. *)
Definition py_float (v : pred_val) : res conf :=
  match v with
  | PVNum c => Ok c
  | PVArr _ => Err (TypeError "only 0-dimensional arrays can be converted to Python scalars")
  end.

(** [for pred, chip_geom in zip(predictions, chip_geoms): ...
       if pred_value >= pred_threshold: geometries.append(chip_geom);
                                        confidences.append(float(pred_value))]
    The two parallel lists are kept as one list of pairs. *)
Fixpoint score (thr : conf) (ps : list pred) (cs : list (chip * geom))
    : res (list (geom * conf)) :=
  match ps, cs with
  | p :: ps', (_, g) :: cs' =>
      pred_value p >>= fun val =>
      (if geb (pv_value val) thr then py_float val >>= fun x => Ok [(g, x)]
       else Ok []) >>= fun d =>
      score thr ps' cs' >>= fun rest =>
      Ok (d ++ rest)
  | _, _ => Ok []
  end.

(** *** [_process_tile] *)

(** The [try] block after the fetch: windowing, then one batched
    [model.predict] call when there is at least one chip. *)
Definition classify_tile (v : variant) (t : tile_info) (r : raster)
    (m : model) (thr : conf) : res (list (geom * conf)) :=
  windows v t r (input_shape m) >>= fun cs =>
  match cs with
  | [] => Ok []
  | _ :: _ => predict m (map fst cs) >>= fun ps => score thr ps cs
  end.

(** [_process_tile(tile_info, model, pred_threshold, tries)] with
    [self.chip_size = chip_size]: the detections it returns (the pairs of
    [geometries] and [confidences]) and the warnings it logs. *)
Definition process_tile (v : variant) (chip_size : Z) (t : tile_info)
    (m : model) (thr : conf) (tries : Z) : list (geom * conf) * list warning :=
  match fetch_tile (fetch_once v chip_size t) tries with
  | FetchFailed e => ([], [WFetchFailed (t_x t) (t_y t) e])
  | NoImage => ([], [])
  | Fetched r =>
      match classify_tile v t r m thr with
      | Ok dets => (dets, [])
      | Err e => ([], [WTileError (t_x t) (t_y t) e])
      end
  end.

(** *** [make_predictions] *)

(** One invocation of the progress callback:
    [progress_callback(processed_tiles, total_tiles)] or
    [progress_callback(processed_tiles, total_tiles,
       incremental_predictions=new_predictions, bounding_box=bounding_box)]. *)
Record call := mk_call {
  c_processed : Z;
  c_total : Z;
  c_incremental : option (list (geom * conf) * bbox)
}.

(** The returned [GeoDataFrame]: column names and rows. *)
Record gdf := mk_gdf { gdf_columns : list string; gdf_rows : list (geom * conf) }.

(** [gpd.GeoDataFrame(columns=['geometry', 'confidence'], geometry='geometry', ...)] *)
Definition empty_gdf : gdf := mk_gdf ["geometry"%string; "confidence"%string] [].

(** [gpd.GeoDataFrame({'geometry': all_geometries, 'confidence': all_confidences}, ...)] *)
Definition detections_gdf (dets : list (geom * conf)) : gdf :=
  mk_gdf ["geometry"%string; "confidence"%string] dets.

(** The mutable state a call touches: [self.chip_size], and the log of the
    progress callback's invocations (observable by the hosting application). *)
Record st := mk_st { st_chip_size : Z; st_calls : list call }.

(** State and exceptions. *)
Definition M (A : Type) := st -> res A * st.

Definition ret {A} (a : A) : M A := fun s => (Ok a, s).

Definition bind {A B} (m : M A) (f : A -> M B) : M B := fun s =>
  match m s with
  | (Ok a, s') => f a s'
  | (Err e, s') => (Err e, s')
  end.

Definition lift {A} (r : res A) : M A := fun s => (r, s).

Definition get_chip_size : M Z := fun s => (Ok (st_chip_size s), s).

Definition set_chip_size (c : Z) : M unit :=
  fun s => (Ok tt, mk_st c (st_calls s)).

(** [try: m  except Exception as e: h e] *)
Definition try_except {A} (m : M A) (h : exn -> M A) : M A := fun s =>
  match m s with
  | (Err e, s') => h e s'
  | r => r
  end.

Notation "x <- m ;; k" := (bind m (fun x => k))
  (at level 61, m at next level, right associativity).
Notation "m ;;; k" := (bind m (fun _ => k))
  (at level 61, right associativity).

(** The order in which [concurrent.futures.as_completed] yields the futures
    of one batch. *)
Context {as_completed : list tile_info -> list tile_info}.

(** [if progress_callback and geometries: ... elif progress_callback: ...] *)
Definition notify (cb : option (call -> res unit)) (processed total : Z)
    (dets : list (geom * conf)) (b : bbox) : M unit :=
  match cb with
  | None => ret tt
  | Some f =>
      let c := match dets with
               | [] => mk_call processed total None
               | _ :: _ => mk_call processed total (Some (dets, b))
               end in
      fun s => (f c, mk_st (st_chip_size s) (st_calls s ++ [c]))
  end.

(** [for future in as_completed(futures): geometries, confidences = future.result();
       all_geometries.extend(...); processed_tiles += 1; <callback>] *)
Fixpoint collect (cb : option (call -> res unit)) (total : Z) (b : bbox)
    (results : list (list (geom * conf))) (all : list (geom * conf))
    (processed : Z) : M (list (geom * conf) * Z) :=
  match results with
  | [] => ret (all, processed)
  | dets :: rest =>
      notify cb (processed + 1) total dets b ;;;
      collect cb total b rest (all ++ dets) (processed + 1)
  end.

(** [for batch_start in range(0, len(tile_infos), batch_size): ...] *)
Fixpoint run_batches (v : variant) (m : model) (thr : conf) (tries : Z)
    (cb : option (call -> res unit)) (total : Z) (b : bbox)
    (batches : list (list tile_info)) (all : list (geom * conf))
    (processed : Z) : M (list (geom * conf) * Z) :=
  match batches with
  | [] => ret (all, processed)
  | batch :: rest =>
      cs <- get_chip_size ;;
      let results :=
        map (fun t => fst (process_tile v cs t m thr tries)) (as_completed batch) in
      p <- collect cb total b results all processed ;;
      run_batches v m thr tries cb total b rest (fst p) (snd p)
  end.

(** [tile_infos[batch_start:min(batch_start + batch_size, len(tile_infos))]]
    for every [batch_start] in [range(0, len(tile_infos), batch_size)]. *)
Definition make_batches (tiles : list tile_info) (batch_size : Z)
    : res (list (list tile_info)) :=
  let n := Z.of_nat (List.length tiles) in
  py_range 0 n batch_size >>= fun starts =>
  Ok (map (fun s => py_slice tiles s (Z.min (s + batch_size) n)) starts).

(** [for y in range(n_tiles_y): for x in range(n_tiles_x): tile_infos.append(...)] *)
Definition plan_tiles (b : bbox) (n_tiles_x n_tiles_y : Z) : list tile_info :=
  flat_map (fun y =>
    map (fun x => mk_tile x y (tile_corners b x y n_tiles_x n_tiles_y))
        (py_range1 n_tiles_x))
    (py_range1 n_tiles_y).

(** What the steps of [make_predictions] before the chip-size adjustment
    produce: the bounding box of [region_ee.bounds().getInfo()] and
    [width_pixels], [height_pixels] ([int(width_meters / scale)], ...). *)
Record region_info := mk_region_info {
  ri_bbox : bbox;
  ri_width_pixels : Z;
  ri_height_pixels : Z
}.

(** The arguments of one [make_predictions] call, and the outcomes of its
    external steps. *)
Record run_args := mk_args {
  a_model : model;
  a_threshold : conf;                       (** [pred_threshold] *)
  a_setup : res region_info;                (** [os.makedirs], [get_satellite_collection],
                                                [get_region_bounds], [bounds().getInfo()] *)
  a_callback : option (call -> res unit);   (** [progress_callback] *)
  a_write : res unit;                       (** writing [output_file] *)
  a_tries : Z;                              (** deploy.py parameter [tries] *)
  a_batch_size : Z                          (** deploy.py parameter [batch_size] *)
}.

(** deploy_service.py passes [2] to [_process_tile] and batches by [500]. *)
Definition tries_of (v : variant) (args : run_args) : Z :=
  match v with Legacy => a_tries args | Service => 2 end.

Definition batch_size_of (v : variant) (args : run_args) : Z :=
  match v with Legacy => a_batch_size args | Service => 500 end.

(** The body of the top-level [try] of [make_predictions]. *)
Definition predict_body (v : variant) (args : run_args) : M gdf :=
  ri <- lift (a_setup args) ;;
  cs0 <- get_chip_size ;;
  (if cs0 >? max_tile_dimension then set_chip_size max_tile_dimension
   else ret tt) ;;;
  cs <- get_chip_size ;;
  n_tiles_x <- lift (py_floordiv (ri_width_pixels ri + cs - 1) cs) ;;
  n_tiles_y <- lift (py_floordiv (ri_height_pixels ri + cs - 1) cs) ;;
  let total_tiles := n_tiles_x * n_tiles_y in
  let tile_infos := plan_tiles (ri_bbox ri) n_tiles_x n_tiles_y in
  batches <- lift (make_batches tile_infos (batch_size_of v args)) ;;
  p <- run_batches v (a_model args) (a_threshold args) (tries_of v args)
         (a_callback args) total_tiles (ri_bbox ri) batches [] 0 ;;
  match fst p with
  | [] =>
      (* deploy_service.py also writes an empty GeoJSON file *)
      (match v with Service => lift (a_write args) | Legacy => ret tt end) ;;;
      ret empty_gdf
  | _ :: _ =>
      lift (a_write args) ;;;
      ret (detections_gdf (fst p))
  end.

(** [make_predictions]: [try: <body> except Exception: return empty_gdf]. *)
Definition make_predictions (v : variant) (args : run_args) : M gdf :=
  try_except (predict_body v args) (fun _ => ret empty_gdf).

End Pipeline.

(** ** Helper methods of [ModelDeployer] *)

(** These methods are identical in deploy.py and deploy_service.py. *)

(** *** [get_region_bounds] *)

(** A JSON value, as [request.get_json()] decodes the [region] field. *)
#[warnings="-register-all"]
Inductive json :=
| JNull
| JBool (b : bool)
| JNum (q : Q)
| JStr (s : string)
| JArr (xs : list json)
| JObj (kvs : list (string * json)).

(** [d[k]] on the dict decoded from a JSON object: for a repeated key the
    last binding wins, as with [json.loads]. *)
Fixpoint dict_get (k : string) (kvs : list (string * json)) : option json :=
  match kvs with
  | [] => None
  | (k', v) :: rest =>
      match dict_get k rest with
      | Some w => Some w
      | None => if String.eqb k k' then Some v else None
      end
  end.

(** The exceptions of the conversion: those of [exn] ([IndexError],
    [EEException], [TypeError]), and [KeyError] with its key. *)
Inductive region_exn :=
| RExn (e : exn)
| KeyError (key : json).

(** [d[k]] for a string key [k]. *)
Definition py_getkey (k : string) (kvs : list (string * json)) : json + region_exn :=
  match dict_get k kvs with
  | Some v => inl v
  | None => inr (KeyError (JStr k))
  end.

(** [v[0]] on a decoded JSON value: a list gives its first element, a
    string its first character, a dict looks up the int key [0] (never a
    key of a decoded object), numbers, booleans and [None] are not
    subscriptable. *)
Definition py_getitem0 (v : json) : json + region_exn :=
  match v with
  | JArr (x :: _) => inl x
  | JArr [] => inr (RExn IndexError)
  | JStr (String ch _) => inl (JStr (String ch EmptyString))
  | JStr EmptyString => inr (RExn IndexError)
  | JObj _ => inr (KeyError (JNum 0))
  | JNum _ | JBool _ | JNull => inr (RExn (TypeError "object is not subscriptable"))
  end.

(** [v == s] for a string [s]. *)
Definition is_str (s : string) (v : json) : bool :=
  match v with JStr s' => String.eqb s' s | _ => false end.

Section RegionBounds.

(** [ee.Geometry] objects, and the constructors [ee.Geometry.Polygon] and
    [ee.Geometry.MultiPolygon] (the client library checks the coordinates
    and may raise). *)
Context {ee_geometry : Type}.
Context {ee_polygon ee_multipolygon : json -> ee_geometry + region_exn}.

(** What [get_region_bounds] returns: an [ee.Geometry], or its argument. *)
Inductive region_value :=
| EEGeometry (g : ee_geometry)
| PlainRegion (j : json).

Definition to_region_value (r : ee_geometry + region_exn) : region_value + region_exn :=
  match r with inl g => inl (EEGeometry g) | inr e => inr e end.

(** [if isinstance(region, dict):
       if region['type'] == 'Polygon':
           coordinates = region['coordinates'][0]
           return ee.Geometry.Polygon(coordinates)
       elif region['type'] == 'MultiPolygon':
           return ee.Geometry.MultiPolygon(region['coordinates'])
     return region] *)
Definition get_region_bounds (region : json) : region_value + region_exn :=
  match region with
  | JObj d =>
      match py_getkey "type" d with
      | inr e => inr e
      | inl ty =>
          if is_str "Polygon" ty then
            match py_getkey "coordinates" d with
            | inr e => inr e
            | inl cs =>
                match py_getitem0 cs with
                | inr e => inr e
                | inl coordinates => to_region_value (ee_polygon coordinates)
                end
            end
          else if is_str "MultiPolygon" ty then
            match py_getkey "coordinates" d with
            | inr e => inr e
            | inl cs => to_region_value (ee_multipolygon cs)
            end
          else inl (PlainRegion region)
      end
  | _ => inl (PlainRegion region)
  end.

End RegionBounds.

(** *** [load_model_metadata] *)

(** [model_path.replace('.h5', '_metadata.json')]: Python's [str.replace]
    with these arguments replaces every occurrence of [.h5], scanning from
    the left. *)
Fixpoint replace_h5 (s : string) : string :=
  match s with
  | EmptyString => EmptyString
  | String c rest =>
      match rest with
      | String c2 (String c3 rest3) =>
          if (Ascii.eqb c "." && Ascii.eqb c2 "h" && Ascii.eqb c3 "5")%char
          then ("_metadata.json" ++ replace_h5 rest3)%string
          else String c (replace_h5 rest)
      | _ => String c (replace_h5 rest)
      end
  end.

(** ['.h5' in s] *)
Fixpoint contains_h5 (s : string) : bool :=
  match s with
  | EmptyString => false
  | String c rest =>
      match rest with
      | String c2 (String c3 _) =>
          (Ascii.eqb c "." && Ascii.eqb c2 "h" && Ascii.eqb c3 "5")%char || contains_h5 rest
      | _ => contains_h5 rest
      end
  end.

Section Metadata.

(** The decoded metadata, [os.path.exists], and [open] followed by
    [json.load] (which raise [OSError] and [ValueError]
    ([json.JSONDecodeError]) respectively). *)
Context {metadata : Type}.
Context {path_exists : string -> bool}.
Context {read_json : string -> res metadata}.

(** [metadata_path = model_path.replace('.h5', '_metadata.json')
     if not os.path.exists(metadata_path):
         raise FileNotFoundError(f"Model metadata not found at {metadata_path}")
     with open(metadata_path, 'r') as f: metadata = json.load(f)
     return metadata]
    ([FileNotFoundError] is a subclass of [OSError]). *)
Definition load_model_metadata (model_path : string) : res metadata :=
  let metadata_path := replace_h5 model_path in
  if negb (path_exists metadata_path)
  then Err (OSError ("Model metadata not found at " ++ metadata_path))
  else read_json metadata_path.

End Metadata.

(** *** [normalize_data] *)

Section Normalize.

(** The array is taken elementwise, as the list of its (finite) values.
    [astype("float32")], and division in float32 and in float64, each
    rounding its exact result. *)
Context {to_float32 : Q -> Q}.
Context {div_float32 div_float64 : Q -> Q -> Q}.

(** [np.clip(a, 0, 1)] on one value. *)
Definition np_clip01 (a : Q) : Q := Qmin (Qmax a 0) 1.

(** [if collection == 'S2': return np.clip(data.astype("float32") / 10000, 0, 1)
     elif self.collection == 'S1': return data / 100.0
     return data] *)
Definition normalize_data (self_collection collection : string) (data : list Q) : list Q :=
  if String.eqb collection "S2"
  then map (fun a => np_clip01 (div_float32 (to_float32 a) 10000)) data
  else if String.eqb self_collection "S1"
  then map (fun a => div_float64 a 100) data
  else data.

End Normalize.

Module Demo.
Definition tc (_ : unit) (x y _ _ : Z) : Z * Z := (x, y).
Definition ta (_ : Z * Z) : res Q := Ok 1%Q.
Definition cg (_ : variant) (c : Z * Z) (_ _ _ i j : Z) : Z * Z * (Z * Z) := (c, (i, j)).
Definition cp (t : tile_info (corners:=Z*Z)) (w h : Z) (_ : nat) : res (raster (pixels:=Z*Z)) :=
  Ok (mk_raster 8 8 3 (t_x t, t_y t)).

Definition mdl : model (conf:=Z) (pixels:=Z*Z) :=
  mk_model (4, 4, 3) (fun chips =>
    Ok (map (fun ch => PArr1 [if (fst (ch_px ch) =? 0) then ch_i ch + ch_j ch else 0]) chips)).
Definition args (cb : option (call (conf:=Z) (geom:=Z*Z*(Z*Z)) (bbox:=unit) -> res unit)) (w : res unit) :=
  mk_args mdl 5 (Ok (mk_region_info tt 16 8)) cb w 2 500.

(** An imagery backend on which every [computePixels] call raises. *)
Definition cp_fail (t : tile_info (corners:=Z*Z)) (w h : Z) (_ : nat)
    : res (raster (pixels:=Z*Z)) :=
  Err (EEException "computePixels failed").

(** A classifier whose batch [predict] raises on the chips of tile [(0, 0)]
    and scores every other chip [i + j]. *)
Definition mdl_fail : model (conf:=Z) (pixels:=Z*Z) :=
  mk_model (4, 4, 3) (fun chips =>
    match chips with
    | ch :: _ =>
        if fst (ch_px ch) =? 0 then Err (ValueError "predict failed")
        else Ok (map (fun ch => PArr1 [ch_i ch + ch_j ch]) chips)
    | [] => Ok []
    end).

(** The tile at grid position [(0, 0)] of the demo region. *)
Definition tile00 : tile_info (corners:=Z*Z) := mk_tile 0 0 (0, 0).

Definition args_with (m : model (conf:=Z) (pixels:=Z*Z))
    (setup : res (region_info (bbox:=unit)))
    (cb : option (call (conf:=Z) (geom:=Z*Z*(Z*Z)) (bbox:=unit) -> res unit))
    (w : res unit) : run_args :=
  mk_args m 5 setup cb w 2 500.

Definition run_with v a c := make_predictions (geb:=Z.geb) (tile_corners:=tc) (tile_aspect:=ta)
  (chip_geom:=cg) (compute_pixels:=cp) (as_completed:=fun l => l) v a (mk_st c []).

Definition body_with v a c := predict_body (geb:=Z.geb) (tile_corners:=tc) (tile_aspect:=ta)
  (chip_geom:=cg) (compute_pixels:=cp) (as_completed:=fun l => l) v a (mk_st c []).
(** An imagery backend whose first [computePixels] attempt raises and whose
    later attempts return the raster of [cp]. *)
Definition cp_flaky (t : tile_info (corners:=Z*Z)) (w h : Z) (attempt : nat)
    : res (raster (pixels:=Z*Z)) :=
  match attempt with
  | O => Err (EEException "computePixels timed out")
  | S _ => cp t w h attempt
  end.

(** Classifiers with the scoring of [mdl] and input sizes 1 and 16. *)
Definition mdl1 : model (conf:=Z) (pixels:=Z*Z) := mk_model (1, 1, 3) (predict mdl).
Definition mdl16 : model (conf:=Z) (pixels:=Z*Z) := mk_model (16, 16, 3) (predict mdl).

(** The demo run of deploy.py with a given [batch_size] and a callback. *)
Definition args_batch (cb : option (call (conf:=Z) (geom:=Z*Z*(Z*Z)) (bbox:=unit) -> res unit))
    (bs : Z) : run_args (conf:=Z) (geom:=Z*Z*(Z*Z)) (bbox:=unit) (pixels:=Z*Z) :=
  mk_args mdl 5 (Ok (mk_region_info tt 16 8)) cb (Ok tt) 2 bs.

(** An imagery backend whose results have 8 rows and no columns. *)
Definition cp_nocols (t : tile_info (corners:=Z*Z)) (w h : Z) (_ : nat)
    : res (raster (pixels:=Z*Z)) :=
  Ok (mk_raster 8 0 3 (t_x t, t_y t)).

(** A classifier with predictions of shape [(1, 1)] per chip, scoring chip
    [(i, j)] by [i + j]. *)
Definition mdl_col : model (conf:=Z) (pixels:=Z*Z) :=
  mk_model (4, 4, 3) (fun chips => Ok (map (fun ch => PArr2 [[ch_i ch + ch_j ch]]) chips)).
End Demo.



(** ** Proofs *)

Section Proofs.

Context {conf : Type} {geb : conf -> conf -> bool} {geom bbox corners pixels : Type}
  {tile_corners : bbox -> Z -> Z -> Z -> Z -> corners}
  {tile_aspect : corners -> res Q}
  {chip_geom : variant -> corners -> Z -> Z -> Z -> Z -> Z -> geom}
  {compute_pixels : tile_info (corners:=corners) -> Z -> Z -> nat -> res (raster (pixels:=pixels))}
  {as_completed : list (tile_info (corners:=corners)) -> list (tile_info (corners:=corners))}.

Local Abbreviation run_args :=
  (run_args (conf:=conf) (geom:=geom) (bbox:=bbox) (pixels:=pixels)).
Local Abbreviation gdf := (gdf (conf:=conf) (geom:=geom)).
Local Abbreviation empty_gdf := (empty_gdf (conf:=conf) (geom:=geom)).
Local Abbreviation model := (model (conf:=conf) (pixels:=pixels)).
Local Abbreviation tile_info := (tile_info (corners:=corners)).
Local Abbreviation raster := (raster (pixels:=pixels)).
Local Abbreviation call := (call (conf:=conf) (geom:=geom) (bbox:=bbox)).
Local Abbreviation st := (@st conf geom bbox).
Local Abbreviation M := (@M conf geom bbox).
Local Abbreviation bind := (@bind conf geom bbox).
Local Abbreviation ret := (@ret conf geom bbox).
Local Abbreviation lift := (@lift conf geom bbox).
Local Abbreviation get_chip_size := (@get_chip_size conf geom bbox).
Local Abbreviation set_chip_size := (@set_chip_size conf geom bbox).
Local Abbreviation try_except := (@try_except conf geom bbox).
Local Abbreviation fetch_once :=
  (@fetch_once corners pixels tile_aspect compute_pixels).
Local Abbreviation windows := (@windows geom corners pixels chip_geom).
Local Abbreviation score := (@score conf geb geom pixels).
Local Abbreviation classify_tile :=
  (@classify_tile conf geb geom corners pixels chip_geom).
Local Abbreviation process_tile :=
  (@process_tile conf geb geom corners pixels tile_aspect chip_geom compute_pixels).
Local Abbreviation notify := (@notify conf geom bbox).
Local Abbreviation collect := (@collect conf geom bbox).
Local Abbreviation run_batches :=
  (@run_batches conf geb geom bbox corners pixels tile_aspect chip_geom
     compute_pixels as_completed).
Local Abbreviation plan_tiles := (@plan_tiles bbox corners tile_corners).
Local Abbreviation predict_body :=
  (@predict_body conf geb geom bbox corners pixels tile_corners tile_aspect
     chip_geom compute_pixels as_completed).
Local Abbreviation make_predictions :=
  (@make_predictions conf geb geom bbox corners pixels tile_corners tile_aspect
     chip_geom compute_pixels as_completed).

(** *** Auxiliary definitions *)

(** The outcome of the final write and return of [predict_body]. *)
Definition finish (v : variant) (args : run_args)
    (all : list (geom * conf)) (s : st) : res gdf * st :=
  match all with
  | [] =>
      match v with
      | Service =>
          match a_write args with
          | Ok _ => (Ok empty_gdf, s)
          | Err e => (Err e, s)
          end
      | Legacy => (Ok empty_gdf, s)
      end
  | _ :: _ =>
      match a_write args with
      | Ok _ => (Ok (detections_gdf all), s)
      | Err e => (Err e, s)
      end
  end.

(** The spec's callback protocol: the [n]-th completed tile (from 0) is
    reported as [(processed + n + 1, total)], with its detections and the
    bounding box exactly when it has at least one detection. *)
Definition incremental (dets : list (geom * conf)) (b : bbox)
    : option (list (geom * conf) * bbox) :=
  match dets with [] => None | _ :: _ => Some (dets, b) end.

Definition expected_progress_calls (processed total : Z) (b : bbox)
    (results : list (list (geom * conf))) : list call :=
  map (fun n => mk_call (processed + Z.of_nat n + 1) total
                  (incremental (nth n results []) b))
      (seq 0 (List.length results)).

Definition calls_of (cb : option (call -> res unit)) (processed total : Z)
    (b : bbox) (results : list (list (geom * conf))) : list call :=
  match cb with
  | None => []
  | Some _ => expected_progress_calls processed total b results
  end.

(** The per-tile results of all batches, in the order [as_completed]
    yields them. *)
Definition batch_results (v : variant) (m : model) (thr : conf) (tries cs : Z)
    (bss : list (list tile_info)) : list (list (geom * conf)) :=
  List.concat (map (fun batch =>
    map (fun t => fst (process_tile v cs t m thr tries)) (as_completed batch)) bss).

(** The window offsets the spec describes along an axis of [n] pixels for
    windows of size [c]: the multiples of the stride [c / 2], from 0, of
    windows that fit entirely inside the axis, in increasing order. *)
Definition window_offsets (n c : Z) : list Z :=
  List.filter (fun i => i + c <=? n) (map (fun k => Z.of_nat k * (c / 2)) (seq 0 (Z.to_nat n))).

(** *** The state and exception monad *)

Lemma bind_ok {A B} (m : M A) (f : A -> M B) s a s' :
  m s = (Ok a, s') -> bind m f s = f a s'.
Proof. intros H. unfold bind. now rewrite H. Qed.

Lemma bind_err {A B} (m : M A) (f : A -> M B) s e s' :
  m s = (Err e, s') -> bind m f s = (Err e, s').
Proof. intros H. unfold bind. now rewrite H. Qed.

(** *** [self.chip_size] is only written by the adjustment step *)

Lemma notify_chip_size cb processed total dets b s :
  st_chip_size (snd (notify cb processed total dets b s)) = st_chip_size s.
Proof. destruct cb; reflexivity. Qed.

Lemma collect_chip_size cb total b results :
  forall all processed s,
  st_chip_size (snd (collect cb total b results all processed s)) = st_chip_size s.
Proof.
  induction results as [|dets rest IH]; intros all processed s; [reflexivity|].
  simpl. unfold bind.
  destruct (notify cb (processed + 1) total dets b s) as [r s1] eqn:E.
  pose proof (notify_chip_size cb (processed + 1) total dets b s) as Hs.
  rewrite E in Hs. simpl in Hs.
  destruct r; simpl; [rewrite IH|]; exact Hs.
Qed.

Lemma run_batches_chip_size v m thr tries cb total b batches :
  forall all processed s,
  st_chip_size (snd (run_batches v m thr tries cb total b batches all processed s))
  = st_chip_size s.
Proof.
  induction batches as [|batch rest IH]; intros all processed s; [reflexivity|].
  simpl. unfold bind at 1. simpl. unfold bind.
  match goal with |- context [collect ?cb ?t ?b ?rs ?a ?p ?s0] =>
    pose proof (collect_chip_size cb t b rs a p s0) as Hs;
    destruct (collect cb t b rs a p s0) as [r s1] eqn:E end.
  simpl in Hs. destruct r; simpl; [rewrite IH|]; exact Hs.
Qed.

Lemma predict_body_chip_size v args s :
  st_chip_size (snd (predict_body v args s)) =
  match a_setup args with
  | Ok _ => clamp_chip_size (st_chip_size s)
  | Err _ => st_chip_size s
  end.
Proof.
  destruct s as [c calls].
  unfold predict_body, clamp_chip_size.
  destruct (a_setup args) as [ri|e]; [|reflexivity].
  unfold bind at 1, lift at 1. simpl.
  unfold bind at 1, get_chip_size at 1. simpl.
  set (c' := if c >? max_tile_dimension then max_tile_dimension else c).
  set (s1 := mk_st c' calls).
  transitivity (st_chip_size s1); [|reflexivity].
  assert (Hs : forall {A} (k : Z -> M A),
    bind (if c >? max_tile_dimension
          then set_chip_size max_tile_dimension else ret tt)
         (fun _ => bind get_chip_size k) (mk_st c calls) = k c' s1).
  { intros A k. unfold c', s1.
    destruct (c >? max_tile_dimension); reflexivity. }
  rewrite Hs. clear Hs.
  unfold bind at 1, lift at 1.
  destruct (py_floordiv (ri_width_pixels ri + c' - 1) c'); [|reflexivity].
  unfold bind at 1, lift at 1.
  destruct (py_floordiv (ri_height_pixels ri + c' - 1) c'); [|reflexivity].
  unfold bind at 1, lift at 1.
  match goal with |- context [make_batches ?t ?n] => destruct (make_batches t n) end;
    [|reflexivity].
  unfold bind at 1.
  match goal with |- context [run_batches ?v ?m ?t ?tr ?cb ?tot ?b ?bs ?a ?p ?s0] =>
    pose proof (run_batches_chip_size v m t tr cb tot b bs a p s0) as Hr;
    destruct (run_batches v m t tr cb tot b bs a p s0) as [r s2] eqn:E end.
  simpl in Hr. destruct r as [p|]; [|exact Hr].
  destruct (fst p); [destruct v|];
    unfold bind, lift, ret; destruct (a_write args); exact Hr.
Qed.

(** *** [make_predictions] step by step *)

Lemma predict_body_eq v args c calls :
  predict_body v args (mk_st c calls) =
  match a_setup args with
  | Err e => (Err e, mk_st c calls)
  | Ok ri =>
      let c' := clamp_chip_size c in
      let s1 := mk_st c' calls in
      match py_floordiv (ri_width_pixels ri + c' - 1) c',
            py_floordiv (ri_height_pixels ri + c' - 1) c' with
      | Err e, _ => (Err e, s1)
      | Ok _, Err e => (Err e, s1)
      | Ok nx, Ok ny =>
          match make_batches (plan_tiles (ri_bbox ri) nx ny) (batch_size_of v args) with
          | Err e => (Err e, s1)
          | Ok batches =>
              match run_batches v (a_model args) (a_threshold args) (tries_of v args)
                      (a_callback args) (nx * ny) (ri_bbox ri) batches [] 0 s1 with
              | (Err e, s2) => (Err e, s2)
              | (Ok p, s2) => finish v args (fst p) s2
              end
          end
      end
  end.
Proof.
  unfold predict_body.
  destruct (a_setup args) as [ri|e]; [|reflexivity].
  unfold bind at 1, lift at 1. cbv zeta.
  unfold bind at 1, get_chip_size at 1. simpl.
  set (c' := clamp_chip_size c).
  assert (Hs : forall {A} (k : Z -> M A),
    bind (if c >? max_tile_dimension
          then set_chip_size max_tile_dimension else ret tt)
         (fun _ => bind get_chip_size k) (mk_st c calls) = k c' (mk_st c' calls)).
  { intros A k. unfold c', clamp_chip_size.
    destruct (c >? max_tile_dimension); reflexivity. }
  rewrite Hs. clear Hs.
  unfold bind at 1, lift at 1.
  destruct (py_floordiv (ri_width_pixels ri + c' - 1) c'); [|reflexivity].
  unfold bind at 1, lift at 1.
  destruct (py_floordiv (ri_height_pixels ri + c' - 1) c'); [|reflexivity].
  unfold bind at 1, lift at 1.
  match goal with |- context [make_batches ?t ?n] => destruct (make_batches t n) end;
    [|reflexivity].
  unfold bind at 1.
  match goal with |- context [run_batches ?v ?m ?t ?tr ?cb ?tot ?b ?bs ?a ?p ?s0] =>
    destruct (run_batches v m t tr cb tot b bs a p s0) as [r s2] end.
  destruct r as [p|]; [|reflexivity].
  unfold finish. destruct (fst p); [destruct v|];
    unfold bind, lift, ret; destruct (a_write args); reflexivity.
Qed.

Lemma make_predictions_eq v args s :
  make_predictions v args s =
  match predict_body v args s with
  | (Ok g, s') => (Ok g, s')
  | (Err _, s') => (Ok empty_gdf, s')
  end.
Proof.
  unfold make_predictions, try_except.
  destruct (predict_body v args s) as [[g|e] s']; reflexivity.
Qed.

Lemma finish_columns v args all s g s' :
  finish v args all s = (Ok g, s') ->
  gdf_columns g = ["geometry"%string; "confidence"%string].
Proof.
  unfold finish. intros H.
  destruct all; [destruct v|]; try destruct (a_write args);
    inversion H; reflexivity.
Qed.

Lemma predict_body_columns v args s g s' :
  predict_body v args s = (Ok g, s') ->
  gdf_columns g = ["geometry"%string; "confidence"%string].
Proof.
  destruct s as [c calls]. rewrite predict_body_eq. intros H.
  destruct (a_setup args) as [ri|]; [|discriminate]. cbv zeta in H.
  destruct (py_floordiv _ _); [|discriminate].
  destruct (py_floordiv _ _); [|discriminate].
  destruct (make_batches _ _); [|discriminate].
  match type of H with context [run_batches ?v ?m ?t ?tr ?cb ?tot ?b ?bs ?a ?p ?s0] =>
    destruct (run_batches v m t tr cb tot b bs a p s0) as [[p'|] s2] end;
    [|discriminate].
  exact (finish_columns _ _ _ _ _ _ H).
Qed.

(** *** C2 *)

(** C2: [make_predictions] never raises: whatever the region, dates, model,
    threshold, callback and the outcomes of the Earth Engine and file
    operations, it returns a GeoDataFrame with the columns [geometry] and
    [confidence]; when the body of its top-level [try] raises, that result
    is the empty GeoDataFrame. *)
Theorem make_predictions_never_raises v args s :
  match make_predictions v args s, predict_body v args s with
  | (Ok g, _), (Ok g', _) =>
      g = g' /\ gdf_columns g = ["geometry"%string; "confidence"%string]
  | (Ok g, _), (Err _, _) => g = empty_gdf
  | (Err _, _), _ => False
  end.
Proof.
  rewrite make_predictions_eq.
  destruct (predict_body v args s) as [[g|e] s'] eqn:E; [|reflexivity].
  split; [reflexivity|]. exact (predict_body_columns _ _ _ _ _ E).
Qed.

(** *** C10 *)

(** C10 (as amended): a call of [make_predictions] whose steps before the
    chip-size adjustment succeed leaves [self.chip_size] clamped to
    [max_tile_dimension] (512) for every later call on the same deployer;
    a call that raises before that step leaves it unchanged. *)
Theorem make_predictions_chip_size v args s :
  st_chip_size (snd (make_predictions v args s)) =
  match a_setup args with
  | Ok _ => clamp_chip_size (st_chip_size s)
  | Err _ => st_chip_size s
  end.
Proof.
  rewrite make_predictions_eq, <- (predict_body_chip_size v args s).
  destruct (predict_body v args s) as [[g|e] s']; reflexivity.
Qed.

(** *** C1 *)

Lemma py_int_le (q : Q) (z : Z) :
  0 <= z -> (q <= inject_Z z)%Q -> py_int q <= z.
Proof.
  intros Hz Hq. unfold py_int.
  destruct (Qle_bool 0 q) eqn:E.
  - rewrite <- (Qfloor_Z z). now apply Qfloor_resp_le.
  - assert (Hneg : (q <= 0)%Q).
    { apply Qlt_le_weak, Qnot_le_lt. intros H.
      apply Qle_bool_iff in H. congruence. }
    pose proof (Qceiling_resp_le _ _ Hneg) as H.
    change (Qceiling 0%Q) with 0 in H. lia.
Qed.

Lemma clamp_chip_size_bounds c :
  0 <= c -> 0 <= clamp_chip_size c <= 512.
Proof.
  unfold clamp_chip_size.
  replace max_tile_dimension with 512 by reflexivity.
  destruct (Z.gtb_spec c 512); lia.
Qed.

(** The sibling path: deploy_service.py sizes every request within the
    ceiling (for a non-negative configured chip size). *)
Lemma service_request_within_ceiling (c : Z) (aspect_ratio : Q) :
  0 <= c ->
  let '(w, h) := request_dims_service (clamp_chip_size c) aspect_ratio in
  w * h <= max_pixels_per_tile.
Proof.
  intros Hc. pose proof (clamp_chip_size_bounds c Hc) as Hb.
  set (c' := clamp_chip_size c) in *.
  replace max_pixels_per_tile with (512 * 512) by reflexivity.
  unfold request_dims_service.
  destruct (Qle_bool aspect_ratio 1) eqn:E.
  - apply Qle_bool_iff in E.
    assert (Hw : py_int (inject_Z c' * aspect_ratio) <= c').
    { apply py_int_le; [lia|].
      rewrite Qmult_comm.
      apply Qle_trans with (1 * inject_Z c')%Q.
      - apply Qmult_le_compat_r; [exact E|].
        change 0%Q with (inject_Z 0). rewrite <- Zle_Qle. lia.
      - rewrite Qmult_1_l. apply Qle_refl. }
    nia.
  - assert (Ha : (1 < aspect_ratio)%Q).
    { apply Qnot_le_lt. intros H. apply Qle_bool_iff in H. congruence. }
    assert (Hh : py_int (inject_Z c' / aspect_ratio) <= c').
    { apply py_int_le; [lia|].
      apply Qle_shift_div_r.
      - apply Qlt_trans with 1%Q; [reflexivity|exact Ha].
      - apply Qle_trans with (inject_Z c' * 1)%Q.
        + rewrite Qmult_1_r. apply Qle_refl.
        + rewrite (Qmult_comm (inject_Z c') 1), (Qmult_comm (inject_Z c')).
          apply Qmult_le_compat_r; [now apply Qlt_le_weak|].
          change 0%Q with (inject_Z 0). rewrite <- Zle_Qle. lia. }
    assert (Hh0 : 0 <= py_int (inject_Z c' / aspect_ratio)).
    { unfold py_int.
      assert (Hq : (0 <= inject_Z c' / aspect_ratio)%Q).
      { apply Qle_shift_div_l.
        - apply Qlt_trans with 1%Q; [reflexivity|exact Ha].
        - rewrite Qmult_0_l. change 0%Q with (inject_Z 0). rewrite <- Zle_Qle. lia. }
      apply Qle_bool_iff in Hq. rewrite Hq.
      apply Qle_bool_iff in Hq.
      rewrite <- (Qfloor_Z 0). now apply Qfloor_resp_le. }
    nia.
Qed.

(** C1: with the default configuration of deploy.py
    ([ModelDeployer(project_id)], [chip_size=576]) the chip size is clamped
    to 512 and then every tile is requested at [514 x 514] pixels, which is
    above the 262144-pixel ceiling. *)
Theorem legacy_request_exceeds_ceiling t attempt :
  clamp_chip_size 576 = 512 /\
  fetch_once Legacy (clamp_chip_size 576) t attempt = compute_pixels t 514 514 attempt /\
  max_pixels_per_tile < 514 * 514.
Proof. repeat split; reflexivity. Qed.

(** *** C8 *)

Lemma floordiv_ceil (w t : Z) :
  0 < t -> (w + t - 1) / t = Qceiling (inject_Z w / inject_Z t).
Proof.
  intros Ht. destruct t as [|p|p]; try lia.
  unfold Qceiling, Qfloor, Qdiv, Qinv, Qmult, Qopp, inject_Z. simpl.
  rewrite ?Z.mul_1_r, ?Pos.mul_1_l.
  pose proof (Z.div_mod (- w) (Z.pos p) ltac:(lia)) as Hd.
  pose proof (Z.mod_pos_bound (- w) (Z.pos p) ltac:(lia)) as Hm.
  symmetry. apply Z.div_unique_pos with (Z.pos p - 1 - (- w) mod Z.pos p); lia.
Qed.

Lemma length_py_range1 n : List.length (py_range1 n) = Z.to_nat n.
Proof. unfold py_range1. now rewrite length_map, length_seq. Qed.

Lemma length_plan_tiles b nx ny :
  List.length (plan_tiles b nx ny) = (Z.to_nat ny * Z.to_nat nx)%nat.
Proof.
  unfold plan_tiles. rewrite <- (length_py_range1 ny).
  induction (py_range1 ny) as [|y ys IH]; [reflexivity|].
  simpl. rewrite length_app, length_map, length_py_range1, IH. reflexivity.
Qed.

(** C8: for positive pixel dimensions [w], [h] and a positive tile size [t]
    ([self.chip_size] after the adjustment) the tile grid of
    [make_predictions] has [ceil(w / t)] columns and [ceil(h / t)] rows and
    [ceil(w / t) * ceil(h / t)] tiles, which is also the [total_tiles]
    reported to the callback. *)
Theorem tile_count_is_ceil_product b w h t :
  0 < w -> 0 < h -> 0 < t ->
  exists n_tiles_x n_tiles_y,
    py_floordiv (w + t - 1) t = Ok n_tiles_x /\
    py_floordiv (h + t - 1) t = Ok n_tiles_y /\
    n_tiles_x = Qceiling (inject_Z w / inject_Z t) /\
    n_tiles_y = Qceiling (inject_Z h / inject_Z t) /\
    Z.of_nat (List.length (plan_tiles b n_tiles_x n_tiles_y)) = n_tiles_x * n_tiles_y.
Proof.
  intros Hw Hh Ht.
  exists ((w + t - 1) / t), ((h + t - 1) / t).
  unfold py_floordiv. destruct (Z.eqb_spec t 0); [lia|].
  repeat split; try now apply floordiv_ceil.
  rewrite length_plan_tiles.
  assert (0 <= (w + t - 1) / t) by (apply Z.div_pos; lia).
  assert (0 <= (h + t - 1) / t) by (apply Z.div_pos; lia).
  rewrite Nat2Z.inj_mul, !Z2Nat.id by assumption. lia.
Qed.

(** *** C5 *)

Lemma fetch_loop_all_fail (f : nat -> res raster) (errs : nat -> exn) tries n :
  (forall a, f a = Err (errs a)) ->
  forall k, (0 < n)%nat -> Z.of_nat (k + n) = tries ->
  fetch_loop f tries (seq k n) = FetchFailed (errs (k + n - 1)%nat).
Proof.
  intros Hf. induction n as [|n IH]; intros k Hn Ht; [lia|].
  simpl. rewrite Hf.
  destruct (Z.eqb_spec (Z.of_nat k) (tries - 1)).
  - assert (n = 0%nat) by lia. subst n. f_equal. f_equal. lia.
  - rewrite IH by lia. f_equal. f_equal. lia.
Qed.

Lemma fetch_loop_ext (f g : nat -> res raster) tries l :
  (forall a, In a l -> f a = g a) ->
  fetch_loop f tries l = fetch_loop g tries l.
Proof.
  induction l as [|a l IH]; intros H; [reflexivity|].
  simpl. rewrite (H a (or_introl eq_refl)).
  destruct (g a); [reflexivity|].
  rewrite IH by (intros b Hb; apply H; now right). reflexivity.
Qed.

(** C5 (as amended): the imagery fetch of a tile is attempted at most
    [tries] times (the outcome only depends on attempts [0 .. tries - 1];
    deploy_service.py uses [tries = 2]); when every attempt raises, the tile
    returns no detections and, for [tries >= 1], logs exactly one warning
    naming the tile's grid coordinates [(x, y)]; for [tries <= 0] nothing is
    fetched and no warning is logged.  [_process_tile] returns normally in
    both cases, so the run goes on with the other tiles. *)
Theorem fetch_failure_is_nonfatal v cs t m thr tries (errs : nat -> exn) :
  (forall (f g : nat -> res raster),
     (forall a, Z.of_nat a < tries -> f a = g a) ->
     fetch_tile f tries = fetch_tile g tries) /\
  ((forall a, fetch_once v cs t a = Err (errs a)) ->
   process_tile v cs t m thr tries =
     ([], if 0 <? tries
          then [WFetchFailed (t_x t) (t_y t) (errs (Z.to_nat tries - 1)%nat)]
          else [])).
Proof.
  split.
  - intros f g H. unfold fetch_tile. apply fetch_loop_ext.
    intros a Ha. apply in_seq in Ha. rewrite H by lia. reflexivity.
  - intros Hf. unfold process_tile, fetch_tile.
    assert (Hf' : forall a, (fetch_once v cs t a >>= to_image) = Err (errs a))
      by (intros a; rewrite Hf; reflexivity).
    destruct (Z.ltb_spec 0 tries).
    + rewrite (fetch_loop_all_fail _ errs tries (Z.to_nat tries) Hf' 0) by lia.
      reflexivity.
    + replace (Z.to_nat tries) with 0%nat by lia. reflexivity.
Qed.

(** *** C6 *)

(** C6 (as amended): when [model.predict] raises on the chips of a fetched
    tile, [_process_tile] catches the exception, logs a warning naming the
    tile and returns no detections for it; it returns normally, so the run
    goes on with the other tiles. *)
Theorem predict_failure_is_caught_per_tile v cs t m thr tries r chips e :
  fetch_tile (fetch_once v cs t) tries = Fetched r ->
  windows v t r (input_shape m) = Ok chips ->
  chips <> [] ->
  predict m (map fst chips) = Err e ->
  process_tile v cs t m thr tries = ([], [WTileError (t_x t) (t_y t) e]).
Proof.
  intros Hf Hw Hne Hp. unfold process_tile. rewrite Hf.
  unfold classify_tile. rewrite Hw.
  destruct chips as [|c0 chips]; [congruence|].
  simpl. simpl in Hp. rewrite Hp. reflexivity.
Qed.

(** *** C7 *)

Lemma plan_tiles_empty b nx ny :
  nx = 0 \/ ny = 0 -> plan_tiles b nx ny = [].
Proof.
  intros [-> | ->]; unfold plan_tiles; [|reflexivity].
  induction (py_range1 ny); [reflexivity|]. simpl. exact IHl.
Qed.

Lemma make_batches_nil (bs : Z) :
  make_batches (corners:=corners) [] bs = Ok [] \/
  exists e, make_batches (corners:=corners) [] bs = Err e.
Proof.
  unfold make_batches, py_range. simpl.
  destruct (Z.eqb_spec bs 0); [right; eexists; reflexivity|left].
  destruct (Z.gtb_spec bs 0).
  - rewrite Z.div_small by lia. reflexivity.
  - rewrite Z.div_small by lia. reflexivity.
Qed.

(** C7 (as amended): a region whose width or height in pixels is 0 (a
    degenerate bounding box) raises no error: with a positive chip size the
    tile grid is empty, no tile is processed, the progress callback is never
    invoked, and [make_predictions] returns the empty GeoDataFrame. *)
Theorem degenerate_region_yields_empty_result v args c calls ri :
  a_setup args = Ok ri ->
  ri_width_pixels ri = 0 \/ ri_height_pixels ri = 0 ->
  0 < c ->
  let c' := clamp_chip_size c in
  plan_tiles (ri_bbox ri) ((ri_width_pixels ri + c' - 1) / c')
             ((ri_height_pixels ri + c' - 1) / c') = [] /\
  make_predictions v args (mk_st c calls) = (Ok empty_gdf, mk_st c' calls).
Proof.
  intros Hs Hd Hc c'.
  assert (Hc' : 0 < c') by (pose proof (clamp_chip_size_bounds c) as B;
    unfold c', clamp_chip_size in *; destruct (Z.gtb_spec c max_tile_dimension);
    [reflexivity|lia]).
  assert (Hp : plan_tiles (ri_bbox ri) ((ri_width_pixels ri + c' - 1) / c')
             ((ri_height_pixels ri + c' - 1) / c') = []).
  { apply plan_tiles_empty.
    destruct Hd as [-> | ->]; [left|right]; apply Z.div_small; lia. }
  split; [exact Hp|].
  rewrite make_predictions_eq, predict_body_eq, Hs. cbv zeta. fold c'.
  unfold py_floordiv. destruct (Z.eqb_spec c' 0); [lia|].
  rewrite Hp.
  destruct (make_batches_nil (batch_size_of v args)) as [E|[e E]]; rewrite E;
    [|reflexivity].
  simpl. unfold finish. destruct v; [reflexivity|].
  destruct (a_write args); reflexivity.
Qed.

(** *** C9 *)

Lemma expected_progress_calls_cons processed total b dets results :
  expected_progress_calls processed total b (dets :: results) =
  mk_call (processed + 1) total (incremental dets b)
    :: expected_progress_calls (processed + 1) total b results.
Proof.
  unfold expected_progress_calls. simpl List.length.
  rewrite <- cons_seq, <- seq_shift, map_cons, map_map. f_equal.
  - f_equal. lia.
  - apply map_ext. intros n. f_equal. lia.
Qed.

Lemma length_calls_of cb processed total b results :
  (List.length (calls_of cb processed total b results) <= List.length results)%nat.
Proof.
  destruct cb; simpl; [|lia].
  unfold expected_progress_calls. rewrite length_map, length_seq. lia.
Qed.

Lemma calls_of_cons cb processed total b dets results :
  calls_of cb processed total b (dets :: results) =
  match cb with
  | None => []
  | Some _ => [mk_call (processed + 1) total (incremental dets b)]
  end ++ calls_of cb (processed + 1) total b results.
Proof.
  destruct cb; [|reflexivity]. simpl. apply expected_progress_calls_cons.
Qed.

Lemma calls_of_app cb processed total b r1 r2 :
  calls_of cb processed total b (r1 ++ r2) =
  calls_of cb processed total b r1 ++
  calls_of cb (processed + Z.of_nat (List.length r1)) total b r2.
Proof.
  revert processed. induction r1 as [|d r1 IH]; intros processed.
  - rewrite Z.add_0_r. destruct cb; reflexivity.
  - simpl app. rewrite !calls_of_cons, IH.
    rewrite !app_assoc. f_equal. f_equal. simpl List.length. lia.
Qed.

Lemma notify_spec cb processed total dets b s :
  let c := mk_call processed total (incremental dets b) in
  notify cb processed total dets b s =
  match cb with
  | None => (Ok tt, s)
  | Some f => (f c, mk_st (st_chip_size s) (st_calls s ++ [c]))
  end.
Proof. destruct cb; [|reflexivity]. destruct dets; reflexivity. Qed.

Lemma collect_spec cb total b results :
  forall all processed s,
  match collect cb total b results all processed s with
  | (Ok q, s') =>
      q = (all ++ List.concat results, processed + Z.of_nat (List.length results)) /\
      st_chip_size s' = st_chip_size s /\
      st_calls s' = st_calls s ++ calls_of cb processed total b results
  | (Err _, s') =>
      st_chip_size s' = st_chip_size s /\
      exists k, (k <= List.length results)%nat /\
        st_calls s' = st_calls s ++ firstn k (calls_of cb processed total b results)
  end.
Proof.
  induction results as [|dets rest IH]; intros all processed s.
  - destruct cb; simpl; rewrite ?app_nil_r, ?Z.add_0_r; auto.
  - simpl collect. unfold bind. rewrite notify_spec.
    rewrite calls_of_cons.
    destruct cb as [f|].
    + destruct (f (mk_call (processed + 1) total (incremental dets b))) as [[]|e].
      * specialize (IH (all ++ dets) (processed + 1)
                      (mk_st (st_chip_size s)
                         (st_calls s ++ [mk_call (processed + 1) total (incremental dets b)]))).
        destruct (collect _ _ _ _ _ _ _) as [[q|e] s'].
        -- destruct IH as (-> & Hc & Hl). simpl in Hc, Hl. repeat split.
           ++ f_equal; [symmetry; apply app_assoc|simpl List.length; lia].
           ++ exact Hc.
           ++ rewrite Hl, app_assoc. reflexivity.
        -- destruct IH as (Hc & k & Hk & Hl). split; [exact Hc|].
           exists (S k). split; [simpl; lia|]. rewrite Hl. simpl.
           rewrite <- app_assoc. reflexivity.
      * split; [reflexivity|]. exists 1%nat. split; [simpl; lia|]. reflexivity.
    + specialize (IH (all ++ dets) (processed + 1) s).
      destruct (collect _ _ _ _ _ _ _) as [[q|e] s'].
      * destruct IH as (-> & Hc & Hl). repeat split; [|exact Hc|exact Hl].
        f_equal; [symmetry; apply app_assoc|simpl List.length; lia].
      * destruct IH as (Hc & k & Hk & Hl). split; [exact Hc|].
        exists k. split; [simpl; lia|]. exact Hl.
Qed.

Lemma run_batches_spec v m thr tries cb total b bss :
  forall all processed s,
  let results := batch_results v m thr tries (st_chip_size s) bss in
  match run_batches v m thr tries cb total b bss all processed s with
  | (Ok q, s') =>
      q = (all ++ List.concat results, processed + Z.of_nat (List.length results)) /\
      st_chip_size s' = st_chip_size s /\
      st_calls s' = st_calls s ++ calls_of cb processed total b results
  | (Err _, s') =>
      st_chip_size s' = st_chip_size s /\
      exists k, (k <= List.length results)%nat /\
        st_calls s' = st_calls s ++ firstn k (calls_of cb processed total b results)
  end.
Proof.
  induction bss as [|batch rest IH]; intros all processed s results.
  - subst results. destruct cb; simpl; rewrite ?app_nil_r, ?Z.add_0_r; auto.
  - subst results. unfold batch_results. simpl run_batches. simpl map.
    rewrite concat_cons. fold (batch_results v m thr tries (st_chip_size s) rest).
    unfold bind at 1, get_chip_size. unfold bind.
    set (R1 := map (fun t => fst (process_tile v (st_chip_size s) t m thr tries))
                 (as_completed batch)).
    set (Rr := batch_results v m thr tries (st_chip_size s) rest).
    pose proof (collect_spec cb total b R1 all processed s) as HC.
    destruct (collect cb total b R1 all processed s) as [[q|e] s1].
    + destruct HC as (-> & Hc1 & Hl1). simpl fst; simpl snd.
      specialize (IH (all ++ List.concat R1) (processed + Z.of_nat (List.length R1)) s1).
      simpl in IH. rewrite Hc1 in IH. fold Rr in IH.
      destruct (run_batches v m thr tries cb total b rest _ _ s1) as [[q'|e'] s2].
      * destruct IH as (-> & Hc2 & Hl2). repeat split.
        -- rewrite concat_app, app_assoc, length_app. f_equal. lia.
        -- congruence.
        -- rewrite Hl2, Hl1, calls_of_app, app_assoc. reflexivity.
      * destruct IH as (Hc2 & k & Hk & Hl2). split; [congruence|].
        exists (List.length (calls_of cb processed total b R1) + k)%nat. split.
        -- rewrite length_app. pose proof (length_calls_of cb processed total b R1). lia.
        -- rewrite Hl2, Hl1, calls_of_app, firstn_app_2, app_assoc. reflexivity.
    + destruct HC as (Hc1 & k & Hk & Hl1). split; [exact Hc1|].
      exists k. split; [rewrite length_app; lia|].
      rewrite Hl1. destruct cb as [c|]; [|reflexivity].
      assert (Hlen : List.length (calls_of (Some c) processed total b R1) = List.length R1).
      { simpl. unfold expected_progress_calls. now rewrite length_map, length_seq. }
      rewrite calls_of_app, firstn_app, Hlen.
      replace (k - List.length R1)%nat with 0%nat by lia.
      simpl. rewrite !app_nil_r. reflexivity.
Qed.

(** The batch loop calls the callback once per completed tile, in
    completion order; if the callback raises, the calls made so far form a
    prefix of that sequence. *)
Lemma run_batches_callback_protocol v m thr tries f total b bss s :
  let expected :=
    expected_progress_calls 0 total b
      (batch_results v m thr tries (st_chip_size s) bss) in
  match run_batches v m thr tries (Some f) total b bss [] 0 s with
  | (Ok _, s') => st_calls s' = st_calls s ++ expected
  | (Err _, s') => exists k, st_calls s' = st_calls s ++ firstn k expected
  end.
Proof.
  intros expected.
  pose proof (run_batches_spec v m thr tries (Some f) total b bss [] 0 s) as H.
  simpl in H. destruct (run_batches _ _ _ _ _ _ _ _ _ _ s) as [[q|e] s'].
  - apply H.
  - destruct H as (_ & k & _ & Hl). exists k. exact Hl.
Qed.

(** *** Batching partitions the tiles *)

Lemma concat_chunks {A} (l : list A) (B K : nat) :
  (List.length l <= K * B)%nat ->
  List.concat (map (fun k => firstn B (skipn (k * B) l)) (seq 0 K)) = l.
Proof.
  revert l. induction K as [|K IH]; intros l Hl.
  - destruct l; [reflexivity|simpl in Hl; lia].
  - rewrite <- cons_seq, <- seq_shift, map_cons, map_map, concat_cons.
    transitivity (firstn B l ++ skipn B l); [|apply firstn_skipn]. f_equal.
    rewrite <- (IH (skipn B l)).
    + f_equal. apply map_ext. intros k. rewrite skipn_skipn.
      f_equal. f_equal. lia.
    + rewrite length_skipn. simpl in Hl. lia.
Qed.

Lemma py_slice_batch {A} (l : list A) (k : nat) (bs : Z) :
  0 < bs ->
  py_slice l (0 + Z.of_nat k * bs) (Z.min (0 + Z.of_nat k * bs + bs) (Z.of_nat (List.length l))) =
  firstn (Z.to_nat bs) (skipn (k * Z.to_nat bs) l).
Proof.
  intros Hbs. unfold py_slice.
  replace (Z.to_nat (0 + Z.of_nat k * bs)) with (k * Z.to_nat bs)%nat by lia.
  destruct (Z.le_gt_cases (0 + Z.of_nat k * bs + bs) (Z.of_nat (List.length l))) as [Hle|Hgt].
  - rewrite Z.min_l by exact Hle. f_equal. lia.
  - rewrite Z.min_r by lia.
    rewrite (firstn_all2 (n := Z.to_nat bs)) by (rewrite length_skipn; lia).
    apply firstn_all2. rewrite length_skipn. lia.
Qed.

Lemma make_batches_concat (tiles : list tile_info) bs bss :
  0 < bs -> make_batches tiles bs = Ok bss -> List.concat bss = tiles.
Proof.
  intros Hbs. unfold make_batches, py_range.
  destruct (Z.eqb_spec bs 0); [lia|].
  destruct (Z.gtb_spec bs 0); [|lia]. simpl. intros Hb. inversion Hb; subst bss. clear Hb.
  rewrite map_map.
  rewrite (map_ext_in _ (fun k => firstn (Z.to_nat bs) (skipn (k * Z.to_nat bs) tiles))).
  - apply concat_chunks.
    set (nt := Z.of_nat (List.length tiles)).
    assert (Hn : 0 <= nt) by lia.
    pose proof (Z.div_mod (nt - 0 + bs - 1) bs ltac:(lia)) as Hd.
    pose proof (Z.mod_pos_bound (nt - 0 + bs - 1) bs ltac:(lia)) as Hm.
    assert (Hq : 0 <= (nt - 0 + bs - 1) / bs) by (apply Z.div_pos; lia).
    nia.
  - intros k _. apply py_slice_batch. exact Hbs.
Qed.

(** *** Scoring keeps exactly the chips at or above the threshold *)










(** *** C3 *)


(** *** C9 at the level of [make_predictions] *)

Lemma collect_no_err cb total b results :
  (forall f c, cb = Some f -> f c = Ok tt) ->
  forall all processed s, exists q s', collect cb total b results all processed s = (Ok q, s').
Proof.
  intros Hcb. induction results as [|dets rest IH]; intros all processed s.
  - eexists _, _. reflexivity.
  - simpl collect. unfold bind. rewrite notify_spec. destruct cb as [f|].
    + rewrite (Hcb f _ eq_refl). apply IH.
    + apply IH.
Qed.

Lemma run_batches_no_err v m thr tries cb total b bss :
  (forall f c, cb = Some f -> f c = Ok tt) ->
  forall all processed s,
  exists q s', run_batches v m thr tries cb total b bss all processed s = (Ok q, s').
Proof.
  intros Hcb. induction bss as [|batch rest IH]; intros all processed s.
  - eexists _, _. reflexivity.
  - simpl run_batches. unfold bind at 1, get_chip_size. unfold bind.
    match goal with |- context [collect ?cb ?t ?b ?r ?a ?p ?s0] =>
      destruct (collect_no_err cb t b r Hcb a p s0) as (q & s1 & ->) end.
    apply IH.
Qed.

Lemma finish_state v args all s : snd (finish v args all s) = s.
Proof.
  unfold finish. destruct all; [destruct v|]; try destruct (a_write args); reflexivity.
Qed.

Lemma make_batches_ok (tiles : list tile_info) bs :
  0 < bs -> exists bss, make_batches tiles bs = Ok bss.
Proof.
  intros Hbs. unfold make_batches, py_range.
  destruct (Z.eqb_spec bs 0); [lia|]. eexists. reflexivity.
Qed.

(** C9: when a progress callback is supplied (and does not raise), every
    run that gets past the region setup calls it once per planned tile, in
    completion order: the [n]-th call (from 0) carries the cumulative count
    [n + 1] and the total [n_tiles_x * n_tiles_y], which is the number of
    planned tiles; it carries that tile's detections and the run's bounding
    box exactly when the tile produced at least one detection. *)
Theorem progress_callback_once_per_tile v args s f ri :
  (forall l, Permutation (as_completed l) l) ->
  0 < st_chip_size s ->
  0 <= ri_width_pixels ri -> 0 <= ri_height_pixels ri ->
  0 < batch_size_of v args ->
  a_setup args = Ok ri ->
  a_callback args = Some f ->
  (forall c, f c = Ok tt) ->
  let c := clamp_chip_size (st_chip_size s) in
  let n_tiles_x := (ri_width_pixels ri + c - 1) / c in
  let n_tiles_y := (ri_height_pixels ri + c - 1) / c in
  let tiles := plan_tiles (ri_bbox ri) n_tiles_x n_tiles_y in
  exists bss,
    make_batches tiles (batch_size_of v args) = Ok bss /\
    List.concat bss = tiles /\
    let results := batch_results v (a_model args) (a_threshold args) (tries_of v args) c bss in
    List.length results = List.length tiles /\
    Z.of_nat (List.length tiles) = n_tiles_x * n_tiles_y /\
    st_calls (snd (make_predictions v args s)) =
      st_calls s ++ expected_progress_calls 0 (n_tiles_x * n_tiles_y) (ri_bbox ri) results.
Proof.
  intros Hac Hc0 Hw Hh Hbs Hsetup Hcb Hf. cbv zeta.
  destruct s as [c0 calls]. simpl st_chip_size in *. simpl st_calls.
  set (c := clamp_chip_size c0).
  assert (Hc : 0 < c).
  { unfold c, clamp_chip_size. replace max_tile_dimension with 512 by reflexivity.
    destruct (Z.gtb_spec c0 512); lia. }
  set (nx := (ri_width_pixels ri + c - 1) / c).
  set (ny := (ri_height_pixels ri + c - 1) / c).
  destruct (make_batches_ok (plan_tiles (ri_bbox ri) nx ny) _ Hbs) as [bss Hb].
  exists bss. split; [exact Hb|].
  pose proof (make_batches_concat _ _ _ Hbs Hb) as Hcat. split; [exact Hcat|].
  split.
  { unfold batch_results. rewrite <- Hcat, !length_concat, map_map. f_equal.
    apply map_ext. intros batch. rewrite length_map. apply Permutation_length, Hac. }
  split.
  { rewrite length_plan_tiles.
    assert (0 <= nx) by (apply Z.div_pos; lia).
    assert (0 <= ny) by (apply Z.div_pos; lia). lia. }
  rewrite make_predictions_eq, predict_body_eq, Hsetup. cbv zeta. fold c.
  unfold py_floordiv. destruct (Z.eqb_spec c 0); [lia|]. fold nx ny. rewrite Hb.
  pose proof (run_batches_spec v (a_model args) (a_threshold args) (tries_of v args)
                (a_callback args) (nx * ny) (ri_bbox ri) bss [] 0 (mk_st c calls)) as HR.
  destruct (run_batches_no_err v (a_model args) (a_threshold args) (tries_of v args)
              (a_callback args) (nx * ny) (ri_bbox ri) bss
              ltac:(intros f' c' E; rewrite Hcb in E; inversion E; subst; apply Hf)
              [] 0 (mk_st c calls)) as (q & s2 & E).
  cbv zeta in HR. rewrite E in HR |- *. destruct HR as (_ & _ & Hl).
  destruct (finish v args (fst q) s2) as [r s3] eqn:Efin.
  pose proof (finish_state v args (fst q) s2) as Hs3. rewrite Efin in Hs3. simpl in Hs3.
  subst s3. destruct r; simpl; rewrite Hl, Hcb; reflexivity.
Qed.

(** *** C4 *)

Lemma filter_map_comm {A B} (p : B -> bool) (g : A -> B) (l : list A) :
  List.filter p (map g l) = map g (List.filter (fun x => p (g x)) l).
Proof.
  induction l as [|x l IH]; [reflexivity|]. simpl. destruct (p (g x)); simpl; now rewrite IH.
Qed.

Lemma filter_seq_prefix (p : nat -> bool) (K N : nat) :
  (forall k, p k = (k <? K)%nat) ->
  List.filter p (seq 0 N) = seq 0 (Nat.min K N).
Proof.
  intros Hp. induction N as [|N IH]; [rewrite Nat.min_0_r; reflexivity|].
  rewrite seq_S, filter_app, IH. simpl. rewrite Hp.
  destruct (Nat.ltb_spec N K).
  - replace (Nat.min K (S N)) with (S N) by lia. rewrite seq_S.
    replace (Nat.min K N) with N by lia. reflexivity.
  - replace (Nat.min K (S N)) with (Nat.min K N) by lia. apply app_nil_r.
Qed.

Lemma py_range_window_offsets n c :
  0 < n -> 2 <= c ->
  py_range 0 (n - c + 1) (c / 2) = Ok (window_offsets n c).
Proof.
  intros Hn Hc. set (s := c / 2).
  assert (Hs : 0 < s) by (unfold s; apply Z.div_str_pos; lia).
  assert (Hs2 : 2 * s <= c) by (unfold s; apply Z.mul_div_le; lia).
  unfold py_range. destruct (Z.eqb_spec s 0); [lia|].
  destruct (Z.gtb_spec s 0); [|lia]. f_equal.
  unfold window_offsets. fold s. rewrite filter_map_comm.
  set (K := Z.to_nat ((n - c + 1 - 0 + s - 1) / s)).
  rewrite (filter_seq_prefix _ K).
  - replace (Nat.min K (Z.to_nat n)) with K.
    + apply map_ext. intros k. lia.
    + unfold K.
      destruct (Z.le_gt_cases 0 (n - c + 1 - 0 + s - 1)) as [Hx|Hx].
      * pose proof (Z.div_mod (n - c + 1 - 0 + s - 1) s ltac:(lia)).
        pose proof (Z.mod_pos_bound (n - c + 1 - 0 + s - 1) s ltac:(lia)).
        assert (0 <= (n - c + 1 - 0 + s - 1) / s) by (apply Z.div_pos; lia).
        nia.
      * assert ((n - c + 1 - 0 + s - 1) / s < 0) by (apply Z.div_lt_upper_bound; lia).
        lia.
  - intros k. unfold K.
    pose proof (Z.div_mod (n - c + 1 - 0 + s - 1) s ltac:(lia)).
    pose proof (Z.mod_pos_bound (n - c + 1 - 0 + s - 1) s ltac:(lia)).
    destruct (Z.leb_spec (Z.of_nat k * s + c) n); destruct (Nat.ltb_spec k (Z.to_nat ((n - c + 1 - 0 + s - 1) / s)));
      try reflexivity; exfalso; nia.
Qed.

Lemma in_window_offsets n c i :
  In i (window_offsets n c) -> 2 <= c -> 0 <= i /\ i + c <= n.
Proof.
  unfold window_offsets. intros Hi Hc. apply filter_In in Hi as [Hi Hle].
  apply Z.leb_le in Hle. apply in_map_iff in Hi as (k & <- & _).
  split; [|exact Hle]. apply Z.mul_nonneg_nonneg; [lia|apply Z.div_pos; lia].
Qed.

Lemma slice_len_inside n i c : 0 <= i -> 0 <= c -> i + c <= n -> slice_len n i (i + c) = c.
Proof. intros. unfold slice_len. lia. Qed.

Lemma chip_at_inside v t (r : raster) c i j :
  0 <= c -> 0 <= i -> i + c <= r_h r -> 0 <= j -> j + c <= r_w r ->
  chip_at (chip_geom:=chip_geom) v t r (c, c, r_b r) c i j =
  Some (mk_chip (r_px r) i j (c, c, r_b r), chip_geom v (t_corners t) (r_h r) (r_w r) c i j).
Proof.
  intros. unfold chip_at, patch_shape.
  rewrite (slice_len_inside (r_h r) i c), (slice_len_inside (r_w r) j c) by lia.
  unfold shape_eqb. rewrite !Z.eqb_refl. reflexivity.
Qed.

Lemma fold_rows_ok {A B} (f : A -> list B) (l : list A) :
  fold_right (fun row acc => row >>= fun cs => acc >>= fun rest => Ok (cs ++ rest))
    (Ok []) (map (fun i => Ok (f i)) l) = Ok (flat_map f l).
Proof. induction l as [|x l IH]; [reflexivity|]. simpl. rewrite IH. reflexivity. Qed.

(** C4: for a raster of [H] rows, [W] columns and [B] bands ([H], [W]
    positive) and a model whose declared input shape is [(c, c, B)] with
    [c >= 2] (so the stride [c / 2] is positive), the windowing step emits,
    in row-major order, one chip for every pair of offsets [(i, j)] that are
    multiples of [c / 2] from [(0, 0)] and whose window lies inside the
    raster; each such chip is the [c] by [c] slice at [(i, j)] and has shape
    exactly [(c, c, B)].  Windows reaching past the edge are not emitted. *)
Theorem windows_exact_shape v t r c :
  0 < r_h r -> 0 < r_w r -> 2 <= c ->
  windows v t r (c, c, r_b r) =
    Ok (map (fun '(i, j) =>
               (mk_chip (r_px r) i j (c, c, r_b r),
                chip_geom v (t_corners t) (r_h r) (r_w r) c i j))
            (list_prod (window_offsets (r_h r) c) (window_offsets (r_w r) c))) /\
  Forall (fun ij => 0 <= fst ij /\ fst ij + c <= r_h r /\ 0 <= snd ij /\ snd ij + c <= r_w r /\
                    exists k l, fst ij = Z.of_nat k * (c / 2) /\ snd ij = Z.of_nat l * (c / 2))
    (list_prod (window_offsets (r_h r) c) (window_offsets (r_w r) c)).
Proof.
  intros Hh Hw Hc. split.
  - unfold windows.
    destruct (Z.eqb_spec (r_w r) 0); [lia|]. destruct (Z.eqb_spec (r_h r) 0); [lia|].
    simpl orb. cbv iota.
    rewrite (py_range_window_offsets (r_h r) c Hh Hc). simpl res_bind.
    rewrite (py_range_window_offsets (r_w r) c Hw Hc). simpl res_bind.
    rewrite fold_rows_ok. f_equal.
    assert (Hin : forall l1 l2, (forall i, In i l1 -> 0 <= i /\ i + c <= r_h r) ->
                                (forall j, In j l2 -> 0 <= j /\ j + c <= r_w r) ->
      flat_map (fun i => flat_map (fun j =>
        match chip_at (chip_geom:=chip_geom) v t r (c, c, r_b r) c i j with Some ch => [ch] | None => [] end) l2) l1 =
      map (fun '(i, j) => (mk_chip (r_px r) i j (c, c, r_b r),
                           chip_geom v (t_corners t) (r_h r) (r_w r) c i j))
          (list_prod l1 l2)).
    { induction l1 as [|i l1 IH]; intros l2 H1 H2; [reflexivity|].
      simpl. rewrite map_app, IH; [|intros i' Hi'; apply H1; simpl; auto|exact H2].
      f_equal. rewrite map_map. clear IH.
      destruct (H1 i (or_introl eq_refl)) as [Hi0 Hi1].
      induction l2 as [|j l2 IH2]; [reflexivity|]. cbn [flat_map map app].
      destruct (H2 j (or_introl eq_refl)) as [Hj0 Hj1].
      rewrite chip_at_inside by lia. cbn [app].
      f_equal. apply IH2. intros j' Hj'. apply H2. simpl. auto. }
    apply Hin; intros; apply in_window_offsets; assumption.
  - apply Forall_forall. intros [i j] Hij. apply in_prod_iff in Hij as [Hi Hj]. simpl.
    destruct (in_window_offsets _ _ _ Hi Hc), (in_window_offsets _ _ _ Hj Hc).
    repeat split; try assumption.
    unfold window_offsets in Hi, Hj. apply filter_In in Hi as [Hi _]. apply filter_In in Hj as [Hj _].
    apply in_map_iff in Hi as (k & <- & _). apply in_map_iff in Hj as (l & <- & _).
    exists k, l. auto.
Qed.


(** ** Further properties of the pipeline *)

(** *** The retry loop stops at the first successful attempt *)

Lemma fetch_loop_first_success (f : nat -> res raster) tries k r :
  (forall a, (a < k)%nat -> exists e, f a = Err e) ->
  f k = Ok r -> Z.of_nat k < tries ->
  forall n s, (s <= k < s + n)%nat -> fetch_loop f tries (seq s n) = Fetched r.
Proof.
  intros Hfail Hk Ht. induction n as [|n IH]; intros s Hs; [lia|].
  simpl. destruct (Nat.eq_dec s k) as [->|Hne]; [rewrite Hk; reflexivity|].
  destruct (Hfail s ltac:(lia)) as [e ->].
  destruct (Z.eqb_spec (Z.of_nat s) (tries - 1)); [lia|].
  apply IH. lia.
Qed.

(** X1: when the first [k] attempts of a tile's fetch raise (in the
    request or in the conversion of its result) and attempt [k] (with
    [k < tries]) succeeds, [_process_tile] goes on with the image of
    attempt [k]: the earlier failures leave no warning, and the outcome is
    the classification of that image. *)
Theorem process_tile_first_success v cs t m thr tries k r :
  (forall a, (a < k)%nat -> exists e, (fetch_once v cs t a >>= to_image) = Err e) ->
  (fetch_once v cs t k >>= to_image) = Ok r ->
  Z.of_nat k < tries ->
  process_tile v cs t m thr tries =
    match classify_tile v t r m thr with
    | Ok dets => (dets, [])
    | Err e => ([], [WTileError (t_x t) (t_y t) e])
    end.
Proof.
  intros Hfail Hk Ht. unfold process_tile, fetch_tile.
  rewrite (fetch_loop_first_success _ tries k r Hfail Hk Ht (Z.to_nat tries) 0) by lia.
  reflexivity.
Qed.

(** *** deploy_service.py: every request fits the clamped chip size *)

Lemma py_int_nonneg (q : Q) : (0 <= q)%Q -> 0 <= py_int q.
Proof.
  intros Hq. unfold py_int. apply Qle_bool_iff in Hq. rewrite Hq.
  apply Qle_bool_iff in Hq.
  change 0 with (Qfloor 0). apply Qfloor_resp_le. exact Hq.
Qed.

(** X2: in deploy_service.py, for a non-negative configured chip size [c]
    and a tile whose aspect ratio is positive, each fetch attempt requests
    [width x height] pixels where both sides lie between 0 and the clamped
    chip size, the longer side is exactly the clamped chip size, and the
    request stays within the 262144-pixel ceiling. *)
Theorem service_request_dims c t k ar :
  0 <= c ->
  tile_aspect (t_corners t) = Ok ar ->
  (0 < ar)%Q ->
  exists w h,
    fetch_once Service (clamp_chip_size c) t k = compute_pixels t w h k /\
    0 <= w <= clamp_chip_size c /\ 0 <= h <= clamp_chip_size c /\
    (w = clamp_chip_size c \/ h = clamp_chip_size c) /\
    w * h <= max_pixels_per_tile.
Proof.
  intros Hc Ha Hpos. pose proof (clamp_chip_size_bounds c Hc) as Hb.
  set (c' := clamp_chip_size c) in *.
  assert (Hc' : (0 <= inject_Z c')%Q).
  { change 0%Q with (inject_Z 0). rewrite <- Zle_Qle. lia. }
  simpl. rewrite Ha. simpl. unfold request_dims_service.
  replace max_pixels_per_tile with (512 * 512) by reflexivity.
  destruct (Qle_bool ar 1) eqn:E.
  - apply Qle_bool_iff in E.
    assert (Hw : py_int (inject_Z c' * ar) <= c').
    { apply py_int_le; [lia|].
      rewrite Qmult_comm.
      apply Qle_trans with (1 * inject_Z c')%Q.
      - apply Qmult_le_compat_r; assumption.
      - rewrite Qmult_1_l. apply Qle_refl. }
    assert (Hw0 : 0 <= py_int (inject_Z c' * ar)).
    { apply py_int_nonneg. apply Qmult_le_0_compat; [exact Hc'|apply Qlt_le_weak, Hpos]. }
    eexists _, _. split; [reflexivity|]. repeat split; try lia. nia.
  - assert (Ha1 : (1 < ar)%Q).
    { apply Qnot_le_lt. intros H. apply Qle_bool_iff in H. congruence. }
    assert (Hh : py_int (inject_Z c' / ar) <= c').
    { apply py_int_le; [lia|].
      apply Qle_shift_div_r; [exact Hpos|].
      apply Qle_trans with (inject_Z c' * 1)%Q.
      - rewrite Qmult_1_r. apply Qle_refl.
      - rewrite (Qmult_comm (inject_Z c') 1), (Qmult_comm (inject_Z c')).
        apply Qmult_le_compat_r; [now apply Qlt_le_weak|exact Hc']. }
    assert (Hh0 : 0 <= py_int (inject_Z c' / ar)).
    { apply py_int_nonneg. apply Qle_shift_div_l; [exact Hpos|].
      rewrite Qmult_0_l. exact Hc'. }
    eexists _, _. split; [reflexivity|]. repeat split; try lia. nia.
Qed.

(** *** Batching *)

(** X3: for a positive batch size [bs], the batch loop of [make_predictions]
    splits the planned tiles into [ceil(n / bs)] consecutive batches, each
    holding between 1 and [bs] tiles, whose concatenation is the tile list
    in its original order. *)
Theorem make_batches_partition (tiles : list tile_info) bs :
  0 < bs ->
  exists bss,
    make_batches tiles bs = Ok bss /\
    List.concat bss = tiles /\
    Forall (fun batch => 0 < Z.of_nat (List.length batch) <= bs) bss /\
    Z.of_nat (List.length bss) = (Z.of_nat (List.length tiles) + bs - 1) / bs.
Proof.
  intros Hbs. destruct (make_batches_ok tiles bs Hbs) as [bss Hb].
  exists bss. split; [exact Hb|]. split; [exact (make_batches_concat _ _ _ Hbs Hb)|].
  unfold make_batches, py_range in Hb.
  destruct (Z.eqb_spec bs 0); [lia|]. destruct (Z.gtb_spec bs 0); [|lia].
  simpl in Hb. inversion Hb; subst bss; clear Hb.
  assert (HK0 : 0 <= (Z.of_nat (List.length tiles) - 0 + bs - 1) / bs)
    by (apply Z.div_pos; lia).
  split.
  - rewrite map_map. apply Forall_forall. intros batch Hin.
    apply in_map_iff in Hin as (k & <- & Hk). apply in_seq in Hk.
    pose proof (py_slice_batch tiles k bs Hbs) as E. rewrite !Z.add_0_l in E. rewrite E.
    rewrite length_firstn, length_skipn.
    pose proof (Z.mul_div_le (Z.of_nat (List.length tiles) - 0 + bs - 1) bs Hbs).
    assert (Hkb : Z.of_nat k * bs < Z.of_nat (List.length tiles)) by nia.
    nia.
  - rewrite !length_map, length_seq. rewrite Z2Nat.id by exact HK0. f_equal. lia.
Qed.

Lemma make_batches_nonpos (tiles : list tile_info) bs :
  bs <= 0 -> make_batches tiles bs = Ok [] \/ exists e, make_batches tiles bs = Err e.
Proof.
  intros Hbs. unfold make_batches, py_range.
  destruct (Z.eqb_spec bs 0); [right; eexists; reflexivity|left].
  destruct (Z.gtb_spec bs 0); [lia|].
  assert (Hq : (0 - Z.of_nat (List.length tiles) - bs - 1) / - bs < 1)
    by (apply Z.div_lt_upper_bound; lia).
  replace (Z.to_nat ((0 - Z.of_nat (List.length tiles) - bs - 1) / - bs)) with 0%nat
    by lia.
  reflexivity.
Qed.

(** X4: in deploy.py, where [batch_size] comes from the HTTP request, a
    batch size [<= 0] makes [make_predictions] return the empty
    GeoDataFrame without processing any tile or calling the progress
    callback ([range] with step 0 raises and is caught; a negative step
    gives an empty range); [self.chip_size] is still adjusted when the
    region setup succeeds. *)
Theorem nonpositive_batch_size_runs_nothing args s :
  a_batch_size args <= 0 ->
  make_predictions Legacy args s =
    (Ok empty_gdf,
     mk_st (match a_setup args with
            | Ok _ => clamp_chip_size (st_chip_size s)
            | Err _ => st_chip_size s
            end) (st_calls s)).
Proof.
  intros Hbs. destruct s as [c calls]. rewrite make_predictions_eq, predict_body_eq.
  destruct (a_setup args) as [ri|e]; [|reflexivity]. cbv zeta. simpl st_chip_size.
  destruct (py_floordiv _ _) as [nx|e]; [|reflexivity].
  destruct (py_floordiv _ _) as [ny|e]; [|reflexivity].
  change (batch_size_of Legacy args) with (a_batch_size args).
  destruct (make_batches_nonpos (plan_tiles (ri_bbox ri) nx ny) _ Hbs) as [-> | [e ->]];
    reflexivity.
Qed.

(** *** The tile grid *)

Lemma nth_error_flat_map_uniform {A B} (f : A -> list B) (l : list A) (k : nat) :
  (forall a, In a l -> List.length (f a) = k) ->
  forall i j, (j < k)%nat ->
  nth_error (flat_map f l) (i * k + j) =
    match nth_error l i with Some a => nth_error (f a) j | None => None end.
Proof.
  intros Hl. induction l as [|a l IH]; intros i j Hj.
  - destruct (i * k + j)%nat, i; reflexivity.
  - simpl flat_map. assert (Ha : List.length (f a) = k) by (apply Hl; left; reflexivity).
    destruct i as [|i].
    + simpl. rewrite nth_error_app1 by lia. reflexivity.
    + rewrite nth_error_app2 by (simpl; lia). rewrite Ha.
      replace (S i * k + j - k)%nat with (i * k + j)%nat by lia.
      rewrite IH by (auto; intros a' Ha'; apply Hl; right; exact Ha').
      reflexivity.
Qed.

Lemma nth_error_py_range1 n i :
  (i < Z.to_nat n)%nat -> nth_error (py_range1 n) i = Some (Z.of_nat i).
Proof.
  intros Hi. unfold py_range1. rewrite nth_error_map, nth_error_seq.
  destruct (Nat.ltb_spec i (Z.to_nat n)); [reflexivity|lia].
Qed.

(** X5: the planned tiles are the [n_tiles_x * n_tiles_y] cells of the grid
    in row-major order: the tile at index [y * n_tiles_x + x] is the one at
    grid position [(x, y)], with the corners interpolated for that cell. *)
Theorem plan_tiles_row_major b nx ny x y :
  0 <= x < nx -> 0 <= y < ny ->
  Z.of_nat (List.length (plan_tiles b nx ny)) = nx * ny /\
  nth_error (plan_tiles b nx ny) (Z.to_nat (y * nx + x)) =
    Some (mk_tile x y (tile_corners b x y nx ny)).
Proof.
  intros Hx Hy. split; [rewrite length_plan_tiles; lia|].
  unfold plan_tiles.
  replace (Z.to_nat (y * nx + x)) with (Z.to_nat y * Z.to_nat nx + Z.to_nat x)%nat by lia.
  rewrite (nth_error_flat_map_uniform _ _ (Z.to_nat nx)).
  - rewrite (nth_error_py_range1 ny) by lia.
    rewrite nth_error_map, (nth_error_py_range1 nx) by lia.
    simpl. rewrite !Z2Nat.id by lia. reflexivity.
  - intros a _. rewrite length_map, length_py_range1. reflexivity.
  - lia.
Qed.

(** *** The threshold *)



(** *** Progress reports *)

Lemma make_batches_cases (tiles : list tile_info) bs bss :
  make_batches tiles bs = Ok bss -> List.concat bss = tiles \/ bss = [].
Proof.
  intros Hb. destruct (Z.ltb_spec 0 bs) as [Hbs|Hbs].
  - left. exact (make_batches_concat _ _ _ Hbs Hb).
  - right. destruct (make_batches_nonpos tiles bs Hbs) as [E | [e E]];
      rewrite E in Hb; inversion Hb; reflexivity.
Qed.

Lemma length_batch_results v m thr tries cs bss :
  (forall l, Permutation (as_completed l) l) ->
  List.length (batch_results v m thr tries cs bss) = List.length (List.concat bss).
Proof.
  intros Hac. unfold batch_results. rewrite !length_concat, map_map. f_equal.
  apply map_ext. intros batch. rewrite length_map. apply Permutation_length, Hac.
Qed.

Lemma forall_firstn {A} (P : A -> Prop) (l : list A) k :
  Forall P l -> Forall P (firstn k l).
Proof.
  intros H. revert k. induction H as [|x l Hx Hl IH]; intros [|k]; simpl;
    constructor; auto.
Qed.

Lemma calls_of_bounded cb total b results :
  Z.of_nat (List.length results) <= total ->
  Forall (fun c => 0 < c_processed c <= c_total c) (calls_of cb 0 total b results).
Proof.
  intros Hl. destruct cb; [|constructor]. simpl. unfold expected_progress_calls.
  apply Forall_forall. intros c Hc. apply in_map_iff in Hc as (n & <- & Hn).
  apply in_seq in Hn. simpl. lia.
Qed.

(** X7: every call of the progress callback, whatever the batch size and
    even when the callback itself raises, reports a processed count
    [current] and a total with [0 < current <= total], so the progress
    fraction [current / total] is defined and lies in (0, 1]; this needs a
    positive chip size, non-negative region dimensions and [as_completed]
    yielding each submitted tile once. *)
Theorem progress_fraction_in_unit_interval v args s :
  (forall l, Permutation (as_completed l) l) ->
  0 < st_chip_size s ->
  (forall ri, a_setup args = Ok ri -> 0 <= ri_width_pixels ri /\ 0 <= ri_height_pixels ri) ->
  exists new,
    st_calls (snd (make_predictions v args s)) = st_calls s ++ new /\
    Forall (fun c => 0 < c_processed c <= c_total c) new.
Proof.
  intros Hac Hc0 Hdims. destruct s as [c0 calls]. simpl st_chip_size in Hc0. simpl st_calls.
  rewrite make_predictions_eq.
  assert (Hsnd : forall p : res gdf * st,
    snd (match p with (Ok g, s') => (Ok g, s') | (Err _, s') => (Ok empty_gdf, s') end) = snd p)
    by (intros [[g|e] s']; reflexivity).
  rewrite Hsnd, predict_body_eq. clear Hsnd.
  destruct (a_setup args) as [ri|e] eqn:Hsetup;
    [|exists []; split; [symmetry; apply app_nil_r|constructor]].
  destruct (Hdims ri eq_refl) as [Hw Hh]. cbv zeta.
  set (c := clamp_chip_size c0).
  assert (Hc : 0 < c).
  { unfold c, clamp_chip_size. replace max_tile_dimension with 512 by reflexivity.
    destruct (Z.gtb_spec c0 512); lia. }
  unfold py_floordiv. destruct (Z.eqb_spec c 0); [lia|].
  set (nx := (ri_width_pixels ri + c - 1) / c).
  set (ny := (ri_height_pixels ri + c - 1) / c).
  assert (0 <= nx) by (apply Z.div_pos; lia).
  assert (0 <= ny) by (apply Z.div_pos; lia).
  destruct (make_batches (plan_tiles (ri_bbox ri) nx ny) (batch_size_of v args))
    as [bss|e] eqn:Hb; [|exists []; split; [symmetry; apply app_nil_r|constructor]].
  assert (Hlen : Z.of_nat (List.length
            (batch_results v (a_model args) (a_threshold args) (tries_of v args) c bss))
          <= nx * ny).
  { rewrite length_batch_results by exact Hac.
    destruct (make_batches_cases _ _ _ Hb) as [-> | ->].
    - rewrite length_plan_tiles. lia.
    - simpl. lia. }
  pose proof (run_batches_spec v (a_model args) (a_threshold args) (tries_of v args)
                (a_callback args) (nx * ny) (ri_bbox ri) bss [] 0 (mk_st c calls)) as HR.
  cbv zeta in HR. simpl st_chip_size in HR. simpl st_calls in HR.
  destruct (run_batches v (a_model args) (a_threshold args) (tries_of v args)
              (a_callback args) (nx * ny) (ri_bbox ri) bss [] 0 (mk_st c calls))
    as [[q|e] s2].
  - destruct HR as (_ & _ & Hl). rewrite finish_state.
    eexists. split; [exact Hl|]. apply calls_of_bounded, Hlen.
  - destruct HR as (_ & k & _ & Hl). eexists. split; [exact Hl|].
    apply forall_firstn, calls_of_bounded, Hlen.
Qed.

(** *** The chip-size adjustment happens once *)

(** X8: after a call of [make_predictions] whose region setup succeeds,
    [self.chip_size] is at most 512, and any later call on the same
    deployer, successful or not, leaves it unchanged. *)
Theorem chip_size_adjusted_once v a1 a2 s ri :
  a_setup a1 = Ok ri ->
  st_chip_size (snd (make_predictions v a1 s)) <= max_tile_dimension /\
  st_chip_size (snd (make_predictions v a2 (snd (make_predictions v a1 s)))) =
    st_chip_size (snd (make_predictions v a1 s)).
Proof.
  assert (Hmp : forall a s, st_chip_size (snd (make_predictions v a s)) =
                            st_chip_size (snd (predict_body v a s))).
  { intros a s'. rewrite make_predictions_eq.
    destruct (predict_body v a s') as [[g|e] s'']; reflexivity. }
  intros Hs. rewrite !Hmp, !predict_body_chip_size, Hs, !Hmp, !predict_body_chip_size, Hs.
  unfold clamp_chip_size. replace max_tile_dimension with 512 by reflexivity.
  set (c1 := if st_chip_size s >? 512 then 512 else st_chip_size s).
  assert (Hc1 : c1 <= 512) by (unfold c1; destruct (Z.gtb_spec (st_chip_size s) 512); lia).
  split; [exact Hc1|].
  destruct (a_setup a2); [|reflexivity].
  destruct (Z.gtb_spec c1 512); lia.
Qed.

(** *** Windowing edge cases *)

Lemma fetch_loop_image (f : nat -> res raster) tries l r :
  fetch_loop (fun a => f a >>= to_image) tries l = Fetched r ->
  r_h r = 0 \/ r_w r <> 0.
Proof.
  induction l as [|a l IH]; simpl; [discriminate|].
  destruct (f a) as [r0|e]; simpl.
  - unfold to_image. destruct (Z.eqb_spec (r_h r0) 0); [intros H; inversion H; subst; auto|].
    destruct (Z.eqb_spec (r_w r0) 0).
    + destruct (Z.of_nat a =? tries - 1); [discriminate|exact IH].
    + intros H; inversion H; subst; auto.
  - destruct (Z.of_nat a =? tries - 1); [discriminate|exact IH].
Qed.

(** X9: when a tile's fetch succeeds but the image has no rows (the 1-d
    [np.array([])]), or the model's input size [c] is 0 or 1 (so the
    stride [c // 2] is 0), the windowing raises ([IndexError] from
    [image_data.shape[1]], [ValueError] from [range] with step 0);
    [_process_tile] catches it, logs one warning for the tile and returns
    no detections. *)
Theorem degenerate_window_is_tile_error v cs t m thr tries r c w b :
  fetch_tile (fetch_once v cs t) tries = Fetched r ->
  input_shape m = (c, w, b) ->
  r_h r = 0 \/ 0 <= c <= 1 ->
  process_tile v cs t m thr tries =
    ([], [WTileError (t_x t) (t_y t)
            (if r_h r =? 0 then IndexError
             else ValueError "range() arg 3 must not be zero")]).
Proof.
  intros Hf Hs Hc. pose proof (fetch_loop_image _ _ _ _ Hf) as Hi.
  unfold process_tile. rewrite Hf. unfold classify_tile. rewrite Hs.
  unfold windows. cbv zeta.
  destruct (Z.eqb_spec (r_h r) 0); [reflexivity|].
  destruct (Z.eqb_spec (r_w r) 0); [lia|].
  assert (Hst : c / 2 = 0).
  { destruct Hc as [|Hc]; [lia|]. apply Z.div_small. lia. }
  rewrite Hst. reflexivity.
Qed.

(** X15: a request whose result has rows but no columns is a failed
    attempt (the reshape of the empty 2-d array raises inside the retry
    loop's [try]): when every attempt returns such a result, the tile logs
    one fetch-failure warning carrying that [ValueError] (for
    [tries >= 1]) and returns no detections; it never reaches the
    windowing. *)
Theorem columnless_raster_is_fetch_failure v cs t m thr tries :
  1 <= tries ->
  (forall a, exists r, fetch_once v cs t a = Ok r /\ 0 < r_h r /\ r_w r = 0) ->
  process_tile v cs t m thr tries =
    ([], [WFetchFailed (t_x t) (t_y t)
            (ValueError "cannot reshape array of size 0 into shape (h,0,newaxis)")]).
Proof.
  intros Ht Hf. unfold process_tile, fetch_tile.
  assert (Hf' : forall a, (fetch_once v cs t a >>= to_image) =
    Err ((fun _ => ValueError "cannot reshape array of size 0 into shape (h,0,newaxis)") a)).
  { intros a. destruct (Hf a) as (r & -> & Hh & Hw). simpl. unfold to_image.
    destruct (Z.eqb_spec (r_h r) 0); [lia|]. rewrite Hw. reflexivity. }
  rewrite (fetch_loop_all_fail _ _ tries (Z.to_nat tries) Hf' 0) by lia.
  reflexivity.
Qed.

Lemma py_range_empty stop step :
  stop <= 0 -> 0 < step -> py_range 0 stop step = Ok [].
Proof.
  intros Hs Hp. unfold py_range.
  destruct (Z.eqb_spec step 0); [lia|]. destruct (Z.gtb_spec step 0); [|lia].
  assert (Hq : (stop - 0 + step - 1) / step < 1) by (apply Z.div_lt_upper_bound; lia).
  replace (Z.to_nat ((stop - 0 + step - 1) / step)) with 0%nat by lia.
  reflexivity.
Qed.

(** X10: when a tile's raster is smaller than the model's input size [c]
    ([c >= 2]) in height or width, no window fits: [_process_tile] never
    calls [model.predict] and returns no detections and no warning. *)
Theorem raster_smaller_than_input_yields_nothing v cs t m thr tries r c w b :
  fetch_tile (fetch_once v cs t) tries = Fetched r ->
  input_shape m = (c, w, b) ->
  2 <= c -> 0 < r_h r -> 0 < r_w r ->
  r_h r < c \/ r_w r < c ->
  process_tile v cs t m thr tries = ([], []).
Proof.
  intros Hf Hs Hc Hh Hw Hsmall. unfold process_tile. rewrite Hf.
  unfold classify_tile. rewrite Hs. unfold windows. cbv zeta.
  destruct (Z.eqb_spec (r_w r) 0); [lia|]. destruct (Z.eqb_spec (r_h r) 0); [lia|].
  simpl orb. cbv iota.
  assert (Hst : 0 < c / 2) by (apply Z.div_str_pos; lia).
  destruct (Z.ltb_spec (r_h r) c).
  - rewrite py_range_empty by lia. reflexivity.
  - assert (Hw' : r_w r < c) by lia.
    rewrite (py_range_empty (r_w r - c + 1)) by lia. simpl res_bind.
    assert (Hr : exists is_, py_range 0 (r_h r - c + 1) (c / 2) = Ok is_).
    { unfold py_range. destruct (Z.eqb_spec (c / 2) 0); [lia|]. eexists. reflexivity. }
    destruct Hr as [is_ ->]. simpl res_bind.
    rewrite (fold_rows_ok (fun _ => @nil (chip (pixels:=pixels) * geom)) is_).
    assert (Hnil : forall l : list Z, flat_map (fun _ => @nil (chip (pixels:=pixels) * geom)) l = []).
    { induction l; [reflexivity|exact IHl]. }
    rewrite Hnil. reflexivity.
Qed.

(** *** Predictions with a width-1 column *)

Lemma score_columns thr ps cs :
  Forall (fun p => exists x rest, p = PArr2 ([x] :: rest)) ps ->
  score thr ps cs =
    if existsb (fun p => match pred_value p with
                         | Ok pv => geb (pv_value pv) thr | Err _ => false end)
               (firstn (List.length cs) ps)
    then Err (TypeError "only 0-dimensional arrays can be converted to Python scalars")
    else Ok [].
Proof.
  intros H. revert cs. induction H as [|p ps Hp Hps IH]; intros cs.
  { rewrite firstn_nil. destruct cs as [|[ch g] cs]; reflexivity. }
  destruct Hp as (x & rest & ->).
  destruct cs as [|[ch g] cs]; [reflexivity|]. simpl.
  destruct (geb x thr); simpl; [reflexivity|].
  rewrite IH. destruct (existsb _ _); reflexivity.
Qed.

(** X16: for a classifier whose per-chip prediction is a 2-d array with a
    single column (shape [(k, 1)], [k >= 1]), [pred_value] is the 1-element
    array [pred[0]] and [float(pred_value)] raises [TypeError] under numpy 2:
    no tile ever yields a detection; a fetched tile with chips logs one
    tile error exactly when one of its chips' values clears the threshold,
    and nothing otherwise. *)
Theorem column_predictions_never_detect v cs t m thr tries :
  (forall chips ps, predict m chips = Ok ps ->
     Forall (fun p => exists x rest, p = PArr2 ([x] :: rest)) ps) ->
  fst (process_tile v cs t m thr tries) = [] /\
  (forall r chips ps,
     fetch_tile (fetch_once v cs t) tries = Fetched r ->
     windows v t r (input_shape m) = Ok chips ->
     chips <> [] ->
     predict m (map fst chips) = Ok ps ->
     snd (process_tile v cs t m thr tries) =
       if existsb (fun p => match pred_value p with
                            | Ok pv => geb (pv_value pv) thr | Err _ => false end)
                  (firstn (List.length chips) ps)
       then [WTileError (t_x t) (t_y t)
               (TypeError "only 0-dimensional arrays can be converted to Python scalars")]
       else []).
Proof.
  intros Hm. split.
  - unfold process_tile. destruct (fetch_tile _ _) as [r|e|]; try reflexivity.
    unfold classify_tile. destruct (windows v t r (input_shape m)) as [chips|e]; simpl;
      [|reflexivity].
    destruct chips as [|ch chips]; [reflexivity|].
    destruct (predict m _) as [ps|e] eqn:Hp; simpl; [|reflexivity].
    rewrite (score_columns thr ps _ (Hm _ _ Hp)).
    destruct (existsb _ _); reflexivity.
  - intros r chips ps Hf Hw Hne Hp. unfold process_tile. rewrite Hf.
    unfold classify_tile. rewrite Hw. simpl.
    destruct chips as [|ch chips]; [congruence|]. rewrite Hp. simpl res_bind.
    rewrite (score_columns thr ps _ (Hm _ _ Hp)).
    destruct (existsb _ _); reflexivity.
Qed.

End Proofs.

(** ** Properties of the helper methods *)

Section RegionBoundsProofs.

Context {ee_geometry : Type}.
Context {ee_polygon ee_multipolygon : json -> ee_geometry + region_exn}.

Local Abbreviation get_region_bounds :=
  (@get_region_bounds ee_geometry ee_polygon ee_multipolygon).

(** X11: a GeoJSON [Polygon] is converted from its first ring only: the
    holes of the polygon (its other rings) are dropped, whatever they are;
    a [MultiPolygon] is converted from all of its coordinates. *)
Theorem get_region_bounds_polygon_outer_ring d outer holes :
  dict_get "type" d = Some (JStr "Polygon") ->
  dict_get "coordinates" d = Some (JArr (outer :: holes)) ->
  get_region_bounds (JObj d) = to_region_value (ee_polygon outer) /\
  forall d' cs,
    dict_get "type" d' = Some (JStr "MultiPolygon") ->
    dict_get "coordinates" d' = Some cs ->
    get_region_bounds (JObj d') = to_region_value (ee_multipolygon cs).
Proof.
  intros Ht Hc. split.
  - simpl. unfold py_getkey. rewrite Ht, Hc. reflexivity.
  - intros d' cs Ht' Hc'. simpl. unfold py_getkey. rewrite Ht', Hc'. reflexivity.
Qed.

(** X12: [get_region_bounds] returns its argument unchanged exactly when
    it is not a dict, or is a dict whose ['type'] is neither ['Polygon'] nor
    ['MultiPolygon'] (a GeoJSON [Feature] or [FeatureCollection], for
    instance); a dict without a ['type'] key raises [KeyError]. *)
Theorem get_region_bounds_unchanged region :
  (get_region_bounds region = inl (PlainRegion region) <->
   match region with
   | JObj d => exists ty, dict_get "type" d = Some ty /\
                 ty <> JStr "Polygon" /\ ty <> JStr "MultiPolygon"
   | _ => True
   end) /\
  (forall d, region = JObj d -> dict_get "type" d = None ->
   get_region_bounds region = inr (KeyError (JStr "type"))).
Proof.
  assert (Hstr : forall s ty, is_str s ty = true <-> ty = JStr s).
  { intros s ty. destruct ty; simpl; split; intros H; try discriminate.
    - apply String.eqb_eq in H. congruence.
    - inversion H. apply String.eqb_refl. }
  assert (Hconv : forall r : ee_geometry + region_exn,
            to_region_value r <> inl (PlainRegion region)).
  { intros [g|e]; discriminate. }
  split.
  - destruct region as [| | | |xs|d]; try (split; reflexivity).
    simpl. unfold py_getkey at 1. destruct (dict_get "type" d) as [ty|] eqn:Ht.
    + destruct (is_str "Polygon" ty) eqn:Ep.
      * apply Hstr in Ep. subst ty. split.
        -- intros H. exfalso.
           destruct (py_getkey "coordinates" d) as [cs|e]; [|discriminate].
           destruct (py_getitem0 cs) as [c|e]; [|discriminate].
           exact (Hconv _ H).
        -- intros (ty & Hty & Hp & _). inversion Hty; subst. contradiction.
      * destruct (is_str "MultiPolygon" ty) eqn:Em.
        -- apply Hstr in Em. subst ty. split.
           ++ intros H. exfalso.
              destruct (py_getkey "coordinates" d) as [cs|e]; [|discriminate].
              exact (Hconv _ H).
           ++ intros (ty & Hty & _ & Hm). inversion Hty; subst. contradiction.
        -- split; [intros _|reflexivity].
           exists ty. split; [reflexivity|].
           split; intros ->; [rewrite (proj2 (Hstr _ _) eq_refl) in Ep
                              |rewrite (proj2 (Hstr _ _) eq_refl) in Em]; discriminate.
    + split; [discriminate|]. intros (ty & Hty & _). discriminate.
  - intros d -> Ht. simpl. unfold py_getkey. rewrite Ht. reflexivity.
Qed.

End RegionBoundsProofs.

Lemma replace_h5_free a : contains_h5 a = false -> replace_h5 a = a.
Proof.
  induction a as [|c a IH]; intros H; [reflexivity|].
  destruct a as [|c2 [|c3 a3]].
  - reflexivity.
  - simpl in H |- *. reflexivity.
  - simpl in H. apply orb_false_iff in H as [H1 H2].
    simpl. rewrite H1. f_equal. apply IH. exact H2.
Qed.

Lemma replace_h5_app a b :
  contains_h5 a = false ->
  replace_h5 (a ++ ".h5" ++ b) = (a ++ "_metadata.json" ++ replace_h5 b)%string.
Proof.
  induction a as [|c a IH]; intros H; [reflexivity|].
  assert (Ha : contains_h5 a = false).
  { destruct a as [|c2 [|c3 a3]]; simpl in H; [reflexivity|exact H|].
    apply orb_false_iff in H. apply H. }
  change ((String c a ++ ".h5" ++ b)%string) with (String c (a ++ ".h5" ++ b)).
  transitivity (String c (replace_h5 (a ++ ".h5" ++ b))).
  - destruct a as [|c2 [|c3 a3]].
    + simpl. destruct (Ascii.eqb c "."); reflexivity.
    + simpl. destruct (Ascii.eqb c "."), (Ascii.eqb c2 "h"); reflexivity.
    + simpl in H. apply orb_false_iff in H as [H1 _]. simpl. rewrite H1. reflexivity.
  - rewrite IH by exact Ha. reflexivity.
Qed.

Section MetadataProofs.

Context {metadata : Type}.
Context {path_exists : string -> bool}.
Context {read_json : string -> res metadata}.

Local Abbreviation load_model_metadata :=
  (@load_model_metadata metadata path_exists read_json).

(** X13: [load_model_metadata] replaces every [.h5] of the model path, not
    only the extension: for a prefix [a] without [.h5],
    [a + '.h5' + b] becomes [a + '_metadata.json'] followed by the
    replacement in [b].  So [a + '.h5'] is looked up as
    [a + '_metadata.json'] (and [FileNotFoundError], an [OSError], is
    raised when it does not exist), while a path without [.h5] is looked
    up unchanged: the model file itself is read as the metadata. *)
Theorem load_model_metadata_path a b :
  contains_h5 a = false ->
  replace_h5 a = a /\
  replace_h5 (a ++ ".h5" ++ b) = (a ++ "_metadata.json" ++ replace_h5 b)%string /\
  load_model_metadata (a ++ ".h5") =
    (if path_exists (a ++ "_metadata.json")
     then read_json (a ++ "_metadata.json")
     else Err (OSError ("Model metadata not found at " ++ a ++ "_metadata.json"))) /\
  load_model_metadata a =
    (if path_exists a then read_json a
     else Err (OSError ("Model metadata not found at " ++ a))).
Proof.
  intros H.
  assert (E : replace_h5 (a ++ ".h5") = (a ++ "_metadata.json")%string)
    by exact (replace_h5_app a "" H).
  split; [exact (replace_h5_free a H)|]. split; [exact (replace_h5_app a b H)|].
  unfold load_model_metadata. rewrite E, (replace_h5_free a H).
  split; destruct (path_exists _); reflexivity.
Qed.

End MetadataProofs.

Section NormalizeProofs.

Context {to_float32 : Q -> Q}.
Context {div_float32 div_float64 : Q -> Q -> Q}.

Local Abbreviation normalize_data :=
  (@normalize_data to_float32 div_float32 div_float64).

(** X14: for Sentinel-2 data, [normalize_data] keeps the number of values
    and maps each one into [0, 1], whatever the raw value; a value whose
    scaled float32 [value / 10000] already lies in [0, 1] is returned as
    that scaled value. *)
Theorem normalize_data_s2_unit_interval self_collection data :
  List.length (normalize_data self_collection "S2" data) = List.length data /\
  Forall (fun a => 0 <= a <= 1)%Q (normalize_data self_collection "S2" data) /\
  Forall2 (fun a out =>
             let q := div_float32 (to_float32 a) 10000 in
             (0 <= q <= 1)%Q -> out = q)
    data (normalize_data self_collection "S2" data).
Proof.
  unfold normalize_data. simpl. split; [apply length_map|]. split.
  - apply Forall_forall. intros x Hx. apply in_map_iff in Hx as (a & <- & _).
    unfold np_clip01. split.
    + apply Q.min_glb; [apply Q.le_max_r|discriminate].
    + apply Q.le_min_r.
  - induction data as [|a data IH]; constructor; [|exact IH].
    cbv zeta. intros [H0 H1]. unfold np_clip01.
    set (q := div_float32 (to_float32 a) 10000) in *.
    unfold Qmax, Qmin, GenericMinMax.gmax, GenericMinMax.gmin.
    destruct (Qcompare_spec q 0) as [E|E|E].
    + destruct (Qcompare_spec q 1); [reflexivity|reflexivity|].
      exfalso. apply (Qlt_not_le 1 q); assumption.
    + exfalso. apply (Qlt_not_le q 0); assumption.
    + destruct (Qcompare_spec q 1); [reflexivity|reflexivity|].
      exfalso. apply (Qlt_not_le 1 q); assumption.
Qed.

End NormalizeProofs.

(** ** Counterexamples and witnesses on the demo inputs *)


(** Counterexample to C5: with deploy.py's [tries = 0] (an HTTP request
    parameter in app.py), a tile whose fetches all raise returns no
    detections and logs no warning. *)
Lemma fetch_failure_warning_counterexample :
  process_tile (geb:=Z.geb) (tile_aspect:=Demo.ta) (chip_geom:=Demo.cg)
    (compute_pixels:=Demo.cp_fail) Legacy 512 Demo.tile00 Demo.mdl 5 0 = ([], []).
Proof. vm_compute. reflexivity. Qed.

(** Counterexample to C6: the classifier raises on the chips of tile
    [(0, 0)]; the run is not aborted: tile [(1, 0)] is still processed, both
    tiles are reported to the callback and the run returns the detections
    of tile [(1, 0)] as its result. *)
Lemma predict_failure_counterexample :
  process_tile (geb:=Z.geb) (tile_aspect:=Demo.ta) (chip_geom:=Demo.cg)
    (compute_pixels:=Demo.cp) Legacy 8 Demo.tile00 Demo.mdl_fail 5 2 =
    ([], [WTileError 0 0 (ValueError "predict failed")]) /\
  Demo.run_with Legacy
    (Demo.args_with Demo.mdl_fail (Ok (mk_region_info tt 16 8)) (Some (fun _ => Ok tt)) (Ok tt)) 8 =
  (Ok (detections_gdf [((1, 0, (2, 4)), 6); ((1, 0, (4, 2)), 6); ((1, 0, (4, 4)), 8)]),
   mk_st 8 [mk_call 1 2 None;
            mk_call 2 2 (Some ([((1, 0, (2, 4)), 6); ((1, 0, (4, 2)), 6); ((1, 0, (4, 4)), 8)], tt))]).
Proof. split; vm_compute; reflexivity. Qed.

(** Counterexample to C7: a region 0 pixels wide raises no error; the body
    of [make_predictions] itself completes normally with the empty result. *)
Lemma degenerate_region_counterexample :
  Demo.body_with Legacy (Demo.args_with Demo.mdl (Ok (mk_region_info tt 0 8)) None (Ok tt)) 8 =
  (Ok empty_gdf, mk_st 8 []).
Proof. vm_compute. reflexivity. Qed.

(** Counterexample to C10: the configured chip size 600 exceeds 512, but
    the region setup raises before the adjustment, and [self.chip_size]
    stays 600. *)
Lemma chip_size_mutation_counterexample :
  Demo.run_with Service (Demo.args_with Demo.mdl (Err (EEException "bounds")) None (Ok tt)) 600 =
  (Ok empty_gdf, mk_st 600 []).
Proof. vm_compute. reflexivity. Qed.


(** Witness of C4: an 8 by 8 raster with 3 bands and a 4 by 4 by 3 model. *)
Lemma windows_exact_shape_witness :
  exists chips,
    windows (chip_geom:=Demo.cg) Service Demo.tile00 (mk_raster 8 8 3 (0, 0)) (4, 4, 3) = Ok chips /\
    List.length chips = 9%nat.
Proof.
  eexists. split.
  - exact (proj1 (windows_exact_shape (chip_geom:=Demo.cg) Service Demo.tile00
      (mk_raster 8 8 3 (0, 0)) 4 eq_refl eq_refl ltac:(lia))).
  - vm_compute. reflexivity.
Defined.

(** Witness of C5: every fetch raises and [tries = 2]. *)
Lemma fetch_failure_is_nonfatal_witness :
  process_tile (geb:=Z.geb) (tile_aspect:=Demo.ta) (chip_geom:=Demo.cg)
    (compute_pixels:=Demo.cp_fail) Legacy 512 Demo.tile00 Demo.mdl 5 2 =
  ([], [WFetchFailed 0 0 (EEException "computePixels failed")]).
Proof.
  exact (proj2 (fetch_failure_is_nonfatal (geb:=Z.geb) (tile_aspect:=Demo.ta)
    (chip_geom:=Demo.cg) (compute_pixels:=Demo.cp_fail) Legacy 512 Demo.tile00 Demo.mdl 5 2
    (fun _ => EEException "computePixels failed")) (fun _ => eq_refl)).
Defined.

(** Witness of C6: the classifier raises on the chips of tile [(0, 0)]. *)
Lemma predict_failure_is_caught_per_tile_witness :
  process_tile (geb:=Z.geb) (tile_aspect:=Demo.ta) (chip_geom:=Demo.cg)
    (compute_pixels:=Demo.cp) Legacy 8 Demo.tile00 Demo.mdl_fail 5 2 =
  ([], [WTileError 0 0 (ValueError "predict failed")]).
Proof.
  eapply (predict_failure_is_caught_per_tile (geb:=Z.geb) (tile_aspect:=Demo.ta)
    (chip_geom:=Demo.cg) (compute_pixels:=Demo.cp) Legacy 8 Demo.tile00 Demo.mdl_fail 5 2
    (mk_raster 8 8 3 (0, 0))).
  - reflexivity.
  - vm_compute. reflexivity.
  - discriminate.
  - reflexivity.
Defined.

(** Witness of C7: a region 0 pixels wide, chip size 8. *)
Lemma degenerate_region_yields_empty_result_witness :
  Demo.run_with Legacy (Demo.args_with Demo.mdl (Ok (mk_region_info tt 0 8)) None (Ok tt)) 8 =
  (Ok empty_gdf, mk_st 8 []).
Proof.
  exact (proj2 (degenerate_region_yields_empty_result (geb:=Z.geb) (tile_corners:=Demo.tc)
    (tile_aspect:=Demo.ta) (chip_geom:=Demo.cg) (compute_pixels:=Demo.cp)
    (as_completed:=fun l => l) Legacy
    (Demo.args_with Demo.mdl (Ok (mk_region_info tt 0 8)) None (Ok tt)) 8 []
    (mk_region_info tt 0 8) eq_refl (or_introl eq_refl) eq_refl)).
Defined.

(** Witness of C8: a 16 by 8 pixel region in tiles of 8 pixels. *)
Lemma tile_count_is_ceil_product_witness :
  exists n_tiles_x n_tiles_y,
    py_floordiv (16 + 8 - 1) 8 = Ok n_tiles_x /\
    py_floordiv (8 + 8 - 1) 8 = Ok n_tiles_y /\
    n_tiles_x = Qceiling (inject_Z 16 / inject_Z 8) /\
    n_tiles_y = Qceiling (inject_Z 8 / inject_Z 8) /\
    Z.of_nat (List.length (plan_tiles (tile_corners:=Demo.tc) tt n_tiles_x n_tiles_y)) =
      n_tiles_x * n_tiles_y.
Proof.
  exact (tile_count_is_ceil_product (tile_corners:=Demo.tc) tt 16 8 8 eq_refl eq_refl eq_refl).
Defined.

(** Witness of C9: a deploy.py run over two tiles with a callback that
    accepts every call. *)
Lemma progress_callback_once_per_tile_witness :
  List.length (st_calls (snd (Demo.run_with Legacy
    (Demo.args_with Demo.mdl (Ok (mk_region_info tt 16 8)) (Some (fun _ => Ok tt)) (Ok tt)) 8)))
  = 2%nat.
Proof.
  pose proof (progress_callback_once_per_tile (geb:=Z.geb) (tile_corners:=Demo.tc)
    (tile_aspect:=Demo.ta) (chip_geom:=Demo.cg) (compute_pixels:=Demo.cp)
    (as_completed:=fun l => l) Legacy
    (Demo.args_with Demo.mdl (Ok (mk_region_info tt 16 8)) (Some (fun _ => Ok tt)) (Ok tt))
    (mk_st 8 []) (fun _ => Ok tt) (mk_region_info tt 16 8)
    (fun l => Permutation_refl l) eq_refl ltac:(simpl; lia) ltac:(simpl; lia) eq_refl
    eq_refl eq_refl (fun _ => eq_refl)) as H.
  cbv zeta in H. destruct H as (bss & _ & _ & Hlen & _ & Hcalls).
  unfold Demo.run_with. rewrite Hcalls, length_app.
  unfold expected_progress_calls. rewrite length_map, length_seq, Hlen.
  vm_compute. reflexivity.
Defined.

(** ** Witnesses of the further properties *)

(** Witness of X1: the first fetch attempt of tile [(0, 0)] raises, the
    second succeeds. *)
Lemma process_tile_first_success_witness :
  process_tile (geb:=Z.geb) (tile_aspect:=Demo.ta) (chip_geom:=Demo.cg)
    (compute_pixels:=Demo.cp_flaky) Legacy 8 Demo.tile00 Demo.mdl 5 2 =
  ([((0, 0, (2, 4)), 6); ((0, 0, (4, 2)), 6); ((0, 0, (4, 4)), 8)], []).
Proof.
  rewrite (process_tile_first_success (geb:=Z.geb) (tile_aspect:=Demo.ta)
    (chip_geom:=Demo.cg) (compute_pixels:=Demo.cp_flaky) Legacy 8 Demo.tile00 Demo.mdl 5 2
    1 (mk_raster 8 8 3 (0, 0))).
  - vm_compute. reflexivity.
  - intros a Ha. assert (a = 0%nat) by lia. subst a. eexists. reflexivity.
  - reflexivity.
  - lia.
Defined.

(** Witness of X2: deploy_service.py configured with chip size 600 and a
    tile of aspect ratio 1. *)
Lemma service_request_dims_witness :
  exists w h,
    fetch_once (tile_aspect:=Demo.ta) (compute_pixels:=Demo.cp) Service
      (clamp_chip_size 600) Demo.tile00 0 = Demo.cp Demo.tile00 w h 0 /\
    0 <= w <= clamp_chip_size 600 /\ 0 <= h <= clamp_chip_size 600 /\
    (w = clamp_chip_size 600 \/ h = clamp_chip_size 600) /\
    w * h <= max_pixels_per_tile.
Proof.
  exact (service_request_dims (tile_aspect:=Demo.ta) (compute_pixels:=Demo.cp)
    600 Demo.tile00 0 1 ltac:(lia) eq_refl ltac:(reflexivity)).
Defined.

(** Witness of X3: three tiles in batches of 2. *)
Lemma make_batches_partition_witness :
  exists bss,
    make_batches [Demo.tile00; Demo.tile00; Demo.tile00] 2 = Ok bss /\
    List.concat bss = [Demo.tile00; Demo.tile00; Demo.tile00] /\
    Forall (fun batch => 0 < Z.of_nat (List.length batch) <= 2) bss /\
    Z.of_nat (List.length bss) = (Z.of_nat 3 + 2 - 1) / 2.
Proof.
  exact (make_batches_partition [Demo.tile00; Demo.tile00; Demo.tile00] 2 ltac:(lia)).
Defined.

(** Witness of X4: a deploy.py run with [batch_size = 0]. *)
Lemma nonpositive_batch_size_runs_nothing_witness :
  Demo.run_with Legacy (Demo.args_batch (Some (fun _ => Ok tt)) 0) 8 =
  (Ok empty_gdf, mk_st 8 []).
Proof.
  exact (nonpositive_batch_size_runs_nothing (geb:=Z.geb) (tile_corners:=Demo.tc)
    (tile_aspect:=Demo.ta) (chip_geom:=Demo.cg) (compute_pixels:=Demo.cp)
    (as_completed:=fun l => l) (Demo.args_batch (Some (fun _ => Ok tt)) 0) (mk_st 8 [])
    ltac:(simpl; lia)).
Defined.

(** Witness of X5: the tile at [(2, 1)] of a 3 by 2 grid. *)
Lemma plan_tiles_row_major_witness :
  Z.of_nat (List.length (plan_tiles (tile_corners:=Demo.tc) tt 3 2)) = 3 * 2 /\
  nth_error (plan_tiles (tile_corners:=Demo.tc) tt 3 2) (Z.to_nat (1 * 3 + 2)) =
    Some (mk_tile 2 1 (Demo.tc tt 2 1 3 2)).
Proof.
  exact (plan_tiles_row_major (tile_corners:=Demo.tc) tt 3 2 2 1 ltac:(lia) ltac:(lia)).
Defined.


(** Witness of X7: a deploy.py run whose progress callback raises. *)
Lemma progress_fraction_in_unit_interval_witness :
  exists new,
    st_calls (snd (Demo.run_with Legacy
      (Demo.args_batch (Some (fun _ => Err (OSError "socket closed"))) 500) 8)) = [] ++ new /\
    Forall (fun c => 0 < c_processed c <= c_total c) new.
Proof.
  exact (progress_fraction_in_unit_interval (geb:=Z.geb) (tile_corners:=Demo.tc)
    (tile_aspect:=Demo.ta) (chip_geom:=Demo.cg) (compute_pixels:=Demo.cp)
    (as_completed:=fun l => l) Legacy
    (Demo.args_batch (Some (fun _ => Err (OSError "socket closed"))) 500) (mk_st 8 [])
    (fun l => Permutation_refl l) ltac:(simpl; lia)
    ltac:(intros ri H; inversion H; simpl; lia)).
Defined.

(** Witness of X8: deploy_service.py configured with chip size 600; the
    second call raises in its region setup. *)
Lemma chip_size_adjusted_once_witness :
  st_chip_size (snd (make_predictions (geb:=Z.geb) (tile_corners:=Demo.tc)
    (tile_aspect:=Demo.ta) (chip_geom:=Demo.cg) (compute_pixels:=Demo.cp)
    (as_completed:=fun l => l) Service
    (Demo.args_with Demo.mdl (Err (EEException "bounds")) None (Ok tt))
    (snd (Demo.run_with Service
      (Demo.args_with Demo.mdl (Ok (mk_region_info tt 16 8)) None (Ok tt)) 600)))) = 512.
Proof.
  destruct (chip_size_adjusted_once (geb:=Z.geb) (tile_corners:=Demo.tc)
    (tile_aspect:=Demo.ta) (chip_geom:=Demo.cg) (compute_pixels:=Demo.cp)
    (as_completed:=fun l => l) Service
    (Demo.args_with Demo.mdl (Ok (mk_region_info tt 16 8)) None (Ok tt))
    (Demo.args_with Demo.mdl (Err (EEException "bounds")) None (Ok tt))
    (mk_st 600 []) (mk_region_info tt 16 8) eq_refl) as [_ H].
  unfold Demo.run_with. rewrite H. vm_compute. reflexivity.
Defined.

(** Witness of X9: a model with input size 1 on an 8 by 8 raster. *)
Lemma degenerate_window_is_tile_error_witness :
  process_tile (geb:=Z.geb) (tile_aspect:=Demo.ta) (chip_geom:=Demo.cg)
    (compute_pixels:=Demo.cp) Legacy 8 Demo.tile00 Demo.mdl1 5 2 =
  ([], [WTileError 0 0 (ValueError "range() arg 3 must not be zero")]).
Proof.
  exact (degenerate_window_is_tile_error (geb:=Z.geb) (tile_aspect:=Demo.ta)
    (chip_geom:=Demo.cg) (compute_pixels:=Demo.cp) Legacy 8 Demo.tile00 Demo.mdl1 5 2
    (mk_raster 8 8 3 (0, 0)) 1 1 3 ltac:(vm_compute; reflexivity) eq_refl
    ltac:(right; lia)).
Defined.

(** Witness of X10: a model with input size 16 on an 8 by 8 raster. *)
Lemma raster_smaller_than_input_yields_nothing_witness :
  process_tile (geb:=Z.geb) (tile_aspect:=Demo.ta) (chip_geom:=Demo.cg)
    (compute_pixels:=Demo.cp) Legacy 8 Demo.tile00 Demo.mdl16 5 2 = ([], []).
Proof.
  exact (raster_smaller_than_input_yields_nothing (geb:=Z.geb) (tile_aspect:=Demo.ta)
    (chip_geom:=Demo.cg) (compute_pixels:=Demo.cp) Legacy 8 Demo.tile00 Demo.mdl16 5 2
    (mk_raster 8 8 3 (0, 0)) 16 16 3 ltac:(vm_compute; reflexivity) eq_refl
    ltac:(lia) ltac:(simpl; lia) ltac:(simpl; lia) ltac:(left; simpl; lia)).
Defined.

(** Witness of X11: a polygon with one hole, geometries taken as their
    coordinates. *)
Lemma get_region_bounds_polygon_outer_ring_witness :
  get_region_bounds (ee_polygon:=fun j => inl j) (ee_multipolygon:=fun j => inl j)
    (JObj [("type"%string, JStr "Polygon");
           ("coordinates"%string, JArr [JArr [JNum 0]; JArr [JNum 1]])]) =
  inl (EEGeometry (JArr [JNum 0])).
Proof.
  exact (proj1 (get_region_bounds_polygon_outer_ring (ee_polygon:=fun j => inl j)
    (ee_multipolygon:=fun j => inl j)
    [("type"%string, JStr "Polygon");
     ("coordinates"%string, JArr [JArr [JNum 0]; JArr [JNum 1]])]
    (JArr [JNum 0]) [JArr [JNum 1]] eq_refl eq_refl)).
Defined.

(** Witness of X13: the model path [models/m.h5]. *)
Lemma load_model_metadata_path_witness :
  replace_h5 "models/m.h5" = "models/m_metadata.json"%string.
Proof.
  exact (proj1 (proj2 (load_model_metadata_path (metadata:=unit)
    (path_exists:=fun _ => true) (read_json:=fun _ => Ok tt) "models/m" "" eq_refl))).
Defined.

(** Witness of X15: every request returns 8 rows and no columns. *)
Lemma columnless_raster_is_fetch_failure_witness :
  process_tile (geb:=Z.geb) (tile_aspect:=Demo.ta) (chip_geom:=Demo.cg)
    (compute_pixels:=Demo.cp_nocols) Legacy 8 Demo.tile00 Demo.mdl 5 2 =
  ([], [WFetchFailed 0 0
          (ValueError "cannot reshape array of size 0 into shape (h,0,newaxis)")]).
Proof.
  exact (columnless_raster_is_fetch_failure (geb:=Z.geb) (tile_aspect:=Demo.ta)
    (chip_geom:=Demo.cg) (compute_pixels:=Demo.cp_nocols) Legacy 8 Demo.tile00 Demo.mdl 5 2
    ltac:(lia)
    ltac:(intros a; exists (mk_raster 8 0 3 (0, 0)); split; [reflexivity|simpl; lia])).
Defined.

(** Witness of X16: the classifier [mdl_col] on tile [(0, 0)] at threshold
    5, where chip [(4, 4)] scores 8. *)
Lemma column_predictions_never_detect_witness :
  process_tile (geb:=Z.geb) (tile_aspect:=Demo.ta) (chip_geom:=Demo.cg)
    (compute_pixels:=Demo.cp) Legacy 8 Demo.tile00 Demo.mdl_col 5 2 =
  ([], [WTileError 0 0
          (TypeError "only 0-dimensional arrays can be converted to Python scalars")]).
Proof.
  destruct (column_predictions_never_detect (geb:=Z.geb) (tile_aspect:=Demo.ta)
    (chip_geom:=Demo.cg) (compute_pixels:=Demo.cp) Legacy 8 Demo.tile00 Demo.mdl_col 5 2)
    as [H1 H2].
  - intros chips ps Hp. simpl in Hp. inversion Hp; subst ps.
    apply Forall_forall. intros p Hin. apply in_map_iff in Hin as (ch & <- & _).
    eexists _, _. reflexivity.
  - apply injective_projections; [exact H1|].
    rewrite (H2 (mk_raster 8 8 3 (0, 0))
      [(mk_chip (0, 0) 0 0 (4, 4, 3), ((0, 0), (0, 0)));
       (mk_chip (0, 0) 0 2 (4, 4, 3), ((0, 0), (0, 2)));
       (mk_chip (0, 0) 0 4 (4, 4, 3), ((0, 0), (0, 4)));
       (mk_chip (0, 0) 2 0 (4, 4, 3), ((0, 0), (2, 0)));
       (mk_chip (0, 0) 2 2 (4, 4, 3), ((0, 0), (2, 2)));
       (mk_chip (0, 0) 2 4 (4, 4, 3), ((0, 0), (2, 4)));
       (mk_chip (0, 0) 4 0 (4, 4, 3), ((0, 0), (4, 0)));
       (mk_chip (0, 0) 4 2 (4, 4, 3), ((0, 0), (4, 2)));
       (mk_chip (0, 0) 4 4 (4, 4, 3), ((0, 0), (4, 4)))]
      [PArr2 [[0]]; PArr2 [[2]]; PArr2 [[4]]; PArr2 [[2]]; PArr2 [[4]]; PArr2 [[6]];
       PArr2 [[4]]; PArr2 [[6]]; PArr2 [[8]]]).
    + vm_compute. reflexivity.
    + vm_compute. reflexivity.
    + vm_compute. reflexivity.
    + discriminate.
    + vm_compute. reflexivity.
Defined.
